(** * basic-mcp: a calculator MCP server and its two clients

  A shallow embedding of [server.py], [client.py] and [client-sse.py].

  - Python integers are unbounded, so they are [Z].
  - Python dictionaries and JSON objects are association lists: the
    code only builds them from literals, whose key order is kept.
  - The SDK objects the clients talk to (the MCP session, the OpenAI
    client, the two context managers) are records of methods.  A
    method is a function of the history of interactions so far, so
    that no assumption is made on how a collaborator answers.
  - Awaited code runs in a state and exception monad over a [World]:
    the history of interactions and the store of the Python lists
    that are mutated in place. *)

From Stdlib Require Import ZArith Ascii String List Lia.
From stdpp Require Import base list strings numbers pretty.

Local Open Scope string_scope.
Local Open Scope list_scope.

(** ** Python values *)

#[local] Set Warnings "-register-all".

Inductive PyVal : Type :=
| PNone
| PBool (b : bool)
| PInt (n : Z)
| PStr (s : string)
| PList (l : list PyVal)
| PDict (d : list (string * PyVal)).

(** [d.get(k)] on a dictionary given by its items. *)
Fixpoint dict_get (k : string) (d : list (string * PyVal)) : option PyVal :=
match d with
| [] => None
| (k', v) :: d' => if String.eqb k k' then Some v else dict_get k d'
end.

(** An [Optional[str]] as a value: [None] or the string. *)
Definition py_opt_str (o : option string) : PyVal :=
match o with
| None => PNone
| Some s => PStr s
end.

(** ** Exceptions *)

Inductive Exception : Type :=
| ValueError (msg : string)
| IndexError
| AttributeError (attr : string)
| TypeError
| JSONDecodeError
| UnknownTool (name : string)
| InvalidArguments
| TransportError (msg : string)
| ProviderError (msg : string)
| SystemError.

Definition Result (A : Type) : Type := Exception + A.

(** ** server.py *)

Module Server.

(** The annotations a tool function may carry. *)
Inductive PyType : Type := TInt | TStr | TBool.

Definition has_type (v : PyVal) (t : PyType) : bool :=
  match v, t with
  | PInt _, TInt => true
  | PStr _, TStr => true
  | PBool _, TBool => true
  | _, _ => false
  end.

(** A [def]: its name, docstring, annotated parameters, return
    annotation and body (on positional arguments). *)
Record PyFunction : Type := {
  fn_name : string;
  fn_doc : option string;
  fn_params : list (string * PyType);
  fn_return : PyType;
  fn_call : list PyVal -> Result PyVal
}.

(** Modelled from the spec: the Tool Registry of section 4.1
    ([register], [list], [invoke]) and the [FastMCP] object that holds
    it; FastMCP belongs to the MCP SDK, which is not part of the
    repository's sources. *)
Record ToolEntry : Type := {
  entry_name : string;
  entry_description : option string;
  input_schema : list (string * PyType);
  output : PyType;
  handler : list PyVal -> Result PyVal
}.

Record FastMCP : Type := {
  name : string;
  host : string;
  port : Z;
  registry : list ToolEntry
}.

(** Modelled from the spec: [register(name, description, schema,
    handler)] makes the tool discoverable. *)
Definition register (m : FastMCP) (e : ToolEntry) : FastMCP :=
  {| name := name m; host := host m; port := port m;
     registry := registry m ++ [e] |}.

(** Modelled from the spec: [list()] returns all tool descriptors. *)
Definition list_tools (m : FastMCP) : list ToolEntry := registry m.

Fixpoint find_tool (n : string) (r : list ToolEntry) : option ToolEntry :=
  match r with
  | [] => None
  | e :: r' => if String.eqb n (entry_name e) then Some e else find_tool n r'
  end.

(** The arguments bound to the declared parameters, in declaration
    order; [None] when one is missing or of the wrong type. *)
Fixpoint bind_arguments (schema : list (string * PyType))
    (arguments : list (string * PyVal)) : option (list PyVal) :=
  match schema with
  | [] => Some []
  | (p, t) :: schema' =>
      match dict_get p arguments with
      | Some v =>
          if has_type v t then
            match bind_arguments schema' arguments with
            | Some vs => Some (v :: vs)
            | None => None
            end
          else None
      | None => None
      end
  end.

(** Modelled from the spec: [invoke(name, arguments)] runs the handler
    and returns its result, or fails with [UnknownTool] if the name is
    unregistered, or [InvalidArguments] if the arguments do not satisfy
    the schema. *)
Definition invoke (m : FastMCP) (n : string)
    (arguments : list (string * PyVal)) : Result PyVal :=
  match find_tool n (registry m) with
  | None => inl (UnknownTool n)
  | Some e =>
      match bind_arguments (input_schema e) arguments with
      | None => inl InvalidArguments
      | Some vs => handler e vs
      end
  end.

(** Modelled from the spec: the [@mcp.tool()] decorator registers the
    function under its own name, with its docstring as description and
    its annotations as schema (the decorator is the SDK's). *)
Definition tool (m : FastMCP) (f : PyFunction) : FastMCP :=
  register m {| entry_name := fn_name f;
                entry_description := fn_doc f;
                input_schema := fn_params f;
                output := fn_return f;
                handler := fn_call f |}.

(** server.py, lines 13-15: the body of [add]. *)
Definition add (a b : Z) : Z := (a + b)%Z.

(** server.py, lines 13-15: [add] as a function object. *)
Definition add_def : PyFunction :=
  {| fn_name := "add";
     fn_doc := Some "Add two numbers together";
     fn_params := [("a", TInt); ("b", TInt)];
     fn_return := TInt;
     fn_call := fun args =>
       match args with
       | [PInt a; PInt b] => inr (PInt (add a b))
       | _ => inl TypeError
       end |}.

(** server.py, lines 6-15: the module's [mcp] once the file is loaded. *)
Definition mcp : FastMCP :=
  tool {| name := "Calculator"; host := "0.0.0.0"; port := 8050;
          registry := [] |}
       add_def.

(** What a registry entry tells a client. *)
Definition descriptor (e : ToolEntry)
    : string * option string * list (string * PyType) * PyType :=
  (entry_name e, entry_description e, input_schema e, output e).

End Server.

(** ** The SDK objects the clients use *)

(** [mcp.types]: what a session returns. *)
Module Mcp.

Record Tool : Type := {
  name : string;
  description : option string;
  inputSchema : PyVal
}.

Record ListToolsResult : Type := { tools : list Tool }.

Inductive Content : Type :=
| TextContent (text : string)
| ImageContent (data mimeType : string)
| EmbeddedResource (resource : PyVal).

Record CallToolResult : Type := {
  content : list Content;
  isError : bool
}.

End Mcp.

(** [openai.types.chat]: what a chat completion returns. *)
Module OpenAI.

(** [tool_call.function]: the name and the JSON text of the arguments. *)
Record FunctionCall : Type := {
  name : string;
  arguments : string
}.

Record ToolCall : Type := {
  id : string;
  function : FunctionCall
}.

Record ChatCompletionMessage : Type := {
  content : option string;
  tool_calls : option (list ToolCall)
}.

Record Choice : Type := { message : ChatCompletionMessage }.

Record ChatCompletion : Type := { choices : list Choice }.

End OpenAI.

(** An item of the [messages] list: a dictionary literal, or the
    assistant's message object as the completion returned it. *)
Inductive Message : Type :=
| MDict (items : list (string * PyVal))
| MObj (m : OpenAI.ChatCompletionMessage).

(** The keyword arguments of [chat.completions.create]. *)
Module Request.

Record t : Type := {
  model : string;
  messages : list Message;
  tools : option (list PyVal);
  tool_choice : string
}.

End Request.

(** What [print] writes: a text, or the f-string of line 72 of
    client.py with the objects it formats. *)
Inductive Printed : Type :=
| Text (s : string)
| ToolCalling (tool_calls : option (list OpenAI.ToolCall)).

(** What an [async with] holds. *)
Inductive Resource : Type :=
| Transport (url : string)
| Session.

(** ** Interactions with the outside *)

Inductive Event : Type :=
| EvPrint (p : Printed)
| EvNewOpenAI (err : option Exception)
| EvEnter (r : Resource) (err : option Exception)
| EvExit (r : Resource) (exc : option Exception) (res : Result bool)
| EvInitialize (res : Result unit)
| EvListTools (res : Result Mcp.ListToolsResult)
| EvCallTool (name : string) (arguments : PyVal)
    (res : Result Mcp.CallToolResult)
| EvCreate (req : Request.t) (res : Result OpenAI.ChatCompletion).

(** [mcp.ClientSession]: each method answers from the history so far. *)
Module ClientSession.

Record t : Type := {
  initialize : list Event -> Result unit;
  list_tools : list Event -> Result Mcp.ListToolsResult;
  call_tool : list Event -> string -> PyVal -> Result Mcp.CallToolResult
}.

End ClientSession.

(** [openai.AsyncOpenAI]: [chat.completions.create]. *)
Module AsyncOpenAI.

Record t : Type := {
  create : list Event -> Request.t -> Result OpenAI.ChatCompletion
}.

End AsyncOpenAI.

(** An asynchronous context manager: [__aenter__] and [__aexit__]; the
    latter receives the exception that left the body, if any, and answers
    whether to swallow it. *)
Record ContextManager (A : Type) : Type := {
  aenter : list Event -> Result A;
  aexit : list Event -> option Exception -> Result bool
}.

Arguments aenter {A} _ _.
Arguments aexit {A} _ _ _.

Definition Stream : Type := nat.

(** What the modules import and call to reach the outside. *)
Record Env : Type := {
  new_AsyncOpenAI : list Event -> Result AsyncOpenAI.t;
  sse_client : string -> ContextManager (Stream * Stream);
  new_ClientSession : Stream * Stream -> ContextManager ClientSession.t
}.

(** ** The monad of awaited code *)

Record World : Type := {
  trace : list Event;
  heap : list (list Message)
}.

Definition M (A : Type) : Type := World -> World * Result A.

Definition ret {A : Type} (a : A) : M A := fun w => (w, inr a).

Definition raise {A : Type} (e : Exception) : M A := fun w => (w, inl e).

Definition bind {A B : Type} (m : M A) (k : A -> M B) : M B :=
  fun w =>
    match m w with
    | (w1, inr a) => k a w1
    | (w1, inl e) => (w1, inl e)
    end.

Declare Scope await_scope.
Delimit Scope await_scope with await.
Bind Scope await_scope with M.

Notation "x <- m ;; k" := (bind m (fun x => k))
  (at level 100, m at next level, right associativity) : await_scope.
Notation "m ;; k" := (bind m (fun _ => k))
  (at level 100, right associativity) : await_scope.

Local Open Scope await_scope.

(** The outcome of a call that reaches no collaborator. *)
Definition lift {A : Type} (r : Result A) : M A := fun w => (w, r).

Definition emit (ev : Event) (w : World) : World :=
  {| trace := trace w ++ [ev]; heap := heap w |}.

Definition print (p : Printed) : M unit :=
  fun w => (emit (EvPrint p) w, inr tt).

(** [for x in l: body]. *)
Fixpoint for_each {A : Type} (l : list A) (body : A -> M unit) : M unit :=
  match l with
  | [] => ret tt
  | x :: l' => body x ;; for_each l' body
  end.

(** [l[0]]. *)
Definition index0 {A : Type} (l : list A) : M A :=
  match l with
  | [] => raise IndexError
  | x :: _ => ret x
  end.

(** [item.text]: only a [TextContent] has the attribute. *)
Definition text_of (item : Mcp.Content) : M string :=
  match item with
  | Mcp.TextContent text => ret text
  | _ => raise (AttributeError "text")
  end.

(** A list display: a new list object in the store. *)
Definition new_list (l : list Message) : M nat :=
  fun w => ({| trace := trace w; heap := heap w ++ [l] |},
            inr (length (heap w))).

(** The items a list object holds now.  A reference the code holds
    always names a list of the store; [SystemError] stands for the
    branch that is never taken. *)
Definition get_list (r : nat) : M (list Message) :=
  fun w =>
    match heap w !! r with
    | Some l => (w, inr l)
    | None => (w, inl SystemError)
    end.

(** [messages.append(x)]: in place, seen through every alias. *)
Definition list_append (r : nat) (x : Message) : M unit :=
  fun w =>
    match heap w !! r with
    | Some l => ({| trace := trace w; heap := <[r := l ++ [x]]> (heap w) |},
                 inr tt)
    | None => (w, inl SystemError)
    end.

(** Awaiting a collaborator: the answer is recorded in the history. *)
Definition await_initialize (s : ClientSession.t) : M unit :=
  fun w =>
    let res := ClientSession.initialize s (trace w) in
    (emit (EvInitialize res) w, res).

Definition await_list_tools (s : ClientSession.t) : M Mcp.ListToolsResult :=
  fun w =>
    let res := ClientSession.list_tools s (trace w) in
    (emit (EvListTools res) w, res).

Definition await_call_tool (s : ClientSession.t) (name : string)
    (arguments : PyVal) : M Mcp.CallToolResult :=
  fun w =>
    let res := ClientSession.call_tool s (trace w) name arguments in
    (emit (EvCallTool name arguments res) w, res).

Definition await_create (c : AsyncOpenAI.t) (req : Request.t)
    : M OpenAI.ChatCompletion :=
  fun w =>
    let res := AsyncOpenAI.create c (trace w) req in
    (emit (EvCreate req res) w, res).

(** The exception that left a body, as [__aexit__] receives it. *)
Definition exc_of {A : Type} (r : Result A) : option Exception :=
  match r with
  | inl e => Some e
  | inr _ => None
  end.

(** [async with cm as x: body]: enter; run the body; leave, whatever the
    body did.  A failing [__aenter__] runs neither body nor [__aexit__];
    an exception of [__aexit__] replaces the body's; a true answer of
    [__aexit__] swallows it. *)
Definition async_with {A : Type} (what : Resource) (cm : ContextManager A)
    (body : A -> M unit) : M unit :=
  fun w =>
    match aenter cm (trace w) with
    | inl e => (emit (EvEnter what (Some e)) w, inl e)
    | inr x =>
        let (w1, r) := body x (emit (EvEnter what None) w) in
        let res := aexit cm (trace w1) (exc_of r) in
        (emit (EvExit what (exc_of r) res) w1,
         match res with
         | inl e' => inl e'
         | inr swallow => if swallow then inr tt else r
         end)
    end.

Definition nl : string := String (ascii_of_nat 10) EmptyString.

(** [str(x)] of an [Optional[str]]. *)
Definition str_opt (o : option string) : string :=
  match o with
  | None => "None"
  | Some s => s
  end.

(** ** client.py *)

Module Client.

(** The fields of [self] the methods read; [exit_stack], [stdio] and
    [write] are set by [__init__] and never used. *)
Record MCPOpenAIClient : Type := {
  session : option ClientSession.t;
  openai_client : AsyncOpenAI.t;
  model : string
}.

(** Truth value of an [Optional[str]]: [None] and the empty string are
    false. *)
Definition truthy_str (s : option string) : bool :=
  match s with
  | Some (String _ _) => true
  | _ => false
  end.

(** Truth value of an optional list: [None] and the empty list are
    false. *)
Definition truthy_list {A : Type} (l : option (list A)) : bool :=
  match l with
  | Some (_ :: _) => true
  | _ => false
  end.

(** The items behind an optional reference to a list object. *)
Definition items_of (messages : option nat) : M (option (list Message)) :=
  match messages with
  | None => ret None
  | Some r => l <- get_list r ;; ret (Some l)
  end.

(** [self.session.<method>]: an [AttributeError] while the session is
    [None]. *)
Definition session_attr (self : MCPOpenAIClient) (method : string)
    : M ClientSession.t :=
  match session self with
  | None => raise (AttributeError method)
  | Some s => ret s
  end.

(** client.py, lines 19-30: the [AsyncOpenAI()] of [__init__] is the
    only part that reaches outside. *)
Definition __init__ (env : Env) (model : string) : M MCPOpenAIClient :=
  fun w =>
    match new_AsyncOpenAI env (trace w) with
    | inl e => (emit (EvNewOpenAI (Some e)) w, inl e)
    | inr c =>
        (emit (EvNewOpenAI None) w,
         inr {| session := None; openai_client := c; model := model |})
    end.

(** client.py, lines 32-40. *)
Definition connect_to_server (self : MCPOpenAIClient)
    (session : ClientSession.t) : M MCPOpenAIClient :=
  await_initialize session ;;
  let self := {| session := Some session;
                 openai_client := openai_client self;
                 model := model self |} in
  s <- session_attr self "list_tools" ;;
  tools_result <- await_list_tools s ;;
  print (Text (nl +:+ "Connected to server with tools:")) ;;
  for_each (Mcp.tools tools_result) (fun tool =>
    print (Text ("  - " +:+ Mcp.name tool +:+ ": "
                 +:+ str_opt (Mcp.description tool)))) ;;
  ret self.

(** client.py, lines 50-57: one descriptor in the function-calling
    format. *)
Definition openai_tool (tool : Mcp.Tool) : PyVal :=
  PDict [("type", PStr "function");
         ("function",
          PDict [("name", PStr (Mcp.name tool));
                 ("description", py_opt_str (Mcp.description tool));
                 ("parameters", Mcp.inputSchema tool)])].

(** client.py, lines 42-59. *)
Definition get_mcp_tools (self : MCPOpenAIClient) : M (list PyVal) :=
  s <- session_attr self "list_tools" ;;
  tools_result <- await_list_tools s ;;
  ret (map openai_tool (Mcp.tools tools_result)).

(** client.py, line 90. *)
Definition missing_input : Exception :=
  ValueError "Either 'query' or 'messages' must be provided.".

(** client.py, lines 81-100. *)
Definition _send_to_openai (self : MCPOpenAIClient) (query : option string)
    (messages : option nat) (tools : option (list PyVal))
    (allow_tool_calls : bool) : M OpenAI.ChatCompletion :=
  given <- items_of messages ;;
  if negb (truthy_list given) && negb (truthy_str query) then
    raise missing_input
  else
    messages <- (if negb (truthy_list given) then
                   r <- new_list [MDict [("role", PStr "user");
                                         ("content", py_opt_str query)]] ;;
                   ret (Some r)
                 else ret messages) ;;
    sent <- items_of messages ;;
    await_create (openai_client self)
      {| Request.model := model self;
         Request.messages := default [] sent;
         Request.tools := tools;
         Request.tool_choice := if allow_tool_calls then "auto" else "none" |}.

(** client.py, lines 110-114: the message appended for a tool call. *)
Definition tool_message (tool_call : OpenAI.ToolCall) (text : string)
    : Message :=
  MDict [("role", PStr "tool");
         ("tool_call_id", PStr (OpenAI.id tool_call));
         ("content", PStr text)].

Section WithJson.

(** [json.loads], the standard library's parser. *)
Variable json_loads : string -> Result PyVal.

(** client.py, lines 106-114: the body of the loop, for one tool call. *)
Definition dispatch (self : MCPOpenAIClient) (messages : nat)
    (tool_call : OpenAI.ToolCall) : M unit :=
  s <- session_attr self "call_tool" ;;
  arguments <- lift (json_loads
                       (OpenAI.arguments (OpenAI.function tool_call))) ;;
  result <- await_call_tool s (OpenAI.name (OpenAI.function tool_call))
              arguments ;;
  item <- index0 (Mcp.content result) ;;
  text <- text_of item ;;
  list_append messages (tool_message tool_call text).

(** client.py, lines 103-114. *)
Definition _handle_tool_calls (self : MCPOpenAIClient)
    (tool_calls : list OpenAI.ToolCall) (messages : nat) : M unit :=
  for_each tool_calls (dispatch self messages).

(** client.py, lines 61-78. *)
Definition process_query (self : MCPOpenAIClient) (query : string)
    : M (option string) :=
  tools <- get_mcp_tools self ;;
  empty <- new_list [] ;;
  response <- _send_to_openai self (Some query) (Some empty) (Some tools)
                true ;;
  choice <- index0 (OpenAI.choices response) ;;
  let assistant_message := OpenAI.message choice in
  messages <- new_list [MDict [("role", PStr "user");
                               ("content", PStr query)];
                        MObj assistant_message] ;;
  if negb (truthy_list (OpenAI.tool_calls assistant_message)) then
    ret (OpenAI.content assistant_message)
  else
    print (ToolCalling (OpenAI.tool_calls assistant_message)) ;;
    _handle_tool_calls self
      (default [] (OpenAI.tool_calls assistant_message)) messages ;;
    final_response <- _send_to_openai self (Some "") (Some messages)
                        (Some tools) false ;;
    choice <- index0 (OpenAI.choices final_response) ;;
    ret (OpenAI.content (OpenAI.message choice)).

Definition url : string := "http://localhost:8050/sse".

(** client.py, lines 121-132. *)
Definition main (env : Env) : M unit :=
  client <- __init__ env "gpt-4o" ;;
  async_with (Transport url) (sse_client env url) (fun streams =>
    async_with Session (new_ClientSession env streams) (fun session =>
      client <- connect_to_server client session ;;
      let query := "What's 1 plus 1?" in
      print (Text (nl +:+ "Query: " +:+ query)) ;;
      response <- process_query client query ;;
      print (Text (nl +:+ "Response: " +:+ str_opt response)))).

End WithJson.

End Client.

(** ** client-sse.py *)

Module ClientSse.

Definition url : string := "http://localhost:8050/sse".

(** client-sse.py, lines 8-19. *)
Definition main (env : Env) : M unit :=
  async_with (Transport url) (sse_client env url) (fun streams =>
    async_with Session (new_ClientSession env streams) (fun session =>
      await_initialize session ;;
      tools_result <- await_list_tools session ;;
      print (Text "Available tools:") ;;
      for_each (Mcp.tools tools_result) (fun tool =>
        print (Text ("  - " +:+ Mcp.name tool +:+ ": "
                     +:+ str_opt (Mcp.description tool)))) ;;
      result <- await_call_tool session "add"
                  (PDict [("a", PInt 2); ("b", PInt 3)]) ;;
      item <- index0 (Mcp.content result) ;;
      text <- text_of item ;;
      print (Text ("2 + 3 = " +:+ text)))).

End ClientSse.

(** ** Reading a history *)

Definition is_create (ev : Event) : bool :=
  match ev with
  | EvCreate _ _ => true
  | _ => false
  end.

Definition is_call_tool (ev : Event) : bool :=
  match ev with
  | EvCallTool _ _ _ => true
  | _ => false
  end.

(** The requests sent to the model, and the tool calls sent to the
    session, in a stretch of history. *)
Definition llm_round_trips (d : list Event) : nat :=
  length (filter (fun ev => is_create ev = true) d).

Definition calls_in (d : list Event) : list Event :=
  filter (fun ev => is_call_tool ev = true) d.

Definition tool_dispatches (d : list Event) : nat := length (calls_in d).

(** The first request to the model and what came back. *)
Fixpoint first_create (d : list Event)
    : option (Request.t * Result OpenAI.ChatCompletion) :=
  match d with
  | [] => None
  | EvCreate req res :: _ => Some (req, res)
  | _ :: d' => first_create d'
  end.

(** [response.choices[0].message], when there is one. *)
Definition first_message (res : Result OpenAI.ChatCompletion)
    : option OpenAI.ChatCompletionMessage :=
  match res with
  | inr response =>
      match OpenAI.choices response with
      | choice :: _ => Some (OpenAI.message choice)
      | [] => None
      end
  | inl _ => None
  end.

(** The exception a collaborator answered with, if it did. *)
Definition failure (ev : Event) : option Exception :=
  match ev with
  | EvNewOpenAI (Some e) => Some e
  | EvEnter _ (Some e) => Some e
  | EvExit _ _ (inl e) => Some e
  | EvInitialize (inl e) => Some e
  | EvListTools (inl e) => Some e
  | EvCallTool _ _ (inl e) => Some e
  | EvCreate _ (inl e) => Some e
  | _ => None
  end.

(** Events that go through the transport connection. *)
Definition uses_connection (ev : Event) : bool :=
  match ev with
  | EvEnter Session _ | EvExit Session _ _ => true
  | EvInitialize _ | EvListTools _ | EvCallTool _ _ _ => true
  | _ => false
  end.

(** The transport connection is acquired: [sse_client] was entered. *)
Definition acquires (ev : Event) : bool :=
  match ev with
  | EvEnter (Transport _) None => true
  | _ => false
  end.

(** The transport connection is released: [sse_client] is left. *)
Definition releases (ev : Event) : bool :=
  match ev with
  | EvExit (Transport _) _ _ => true
  | _ => false
  end.

(** Neither an acquisition nor a release. *)
Definition inside (ev : Event) : Prop :=
  acquires ev = false /\ releases ev = false.

(** Has nothing to do with the connection. *)
Definition outside (ev : Event) : Prop :=
  uses_connection ev = false /\ inside ev.

(** A history in which the connection is scoped: either it is acquired
    once, after events that do not touch it, and released by the last
    event; or it is never acquired, never used and never released. *)
Definition scoped (d : list Event) : Prop :=
  (exists before acquire during release,
     d = before ++ acquire :: during ++ [release] /\
     acquires acquire = true /\ releases release = true /\
     Forall outside before /\ Forall inside during) \/
  Forall outside d.

(** An optional reference [messages] holds the items [given] in [w]. *)
Definition points_to (w : World) (messages : option nat)
    (given : option (list Message)) : Prop :=
  match messages, given with
  | None, None => True
  | Some r, Some l => heap w !! r = Some l
  | _, _ => False
  end.

(** The world after a list display. *)
Definition alloc (l : list Message) (w : World) : World :=
  {| trace := trace w; heap := heap w ++ [l] |}.

(** ** What a run of [process_query] looks like *)

Section Runs.

Variable json_loads : string -> Result PyVal.

(** The tool call [tc] was answered: its arguments parsed, the session
    returned a result whose first item is a text (event [ev]), and the
    message [tm] carries that text under the call's id. *)
Definition resolves (tc : OpenAI.ToolCall) (ev : Event) (tm : Message)
    : Prop :=
  exists arguments result text rest,
    json_loads (OpenAI.arguments (OpenAI.function tc)) = inr arguments /\
    ev = EvCallTool (OpenAI.name (OpenAI.function tc)) arguments
           (inr result) /\
    Mcp.content result = Mcp.TextContent text :: rest /\
    tm = MDict [("role", PStr "tool");
                ("tool_call_id", PStr (OpenAI.id tc));
                ("content", PStr text)].

(** From the history [t] on, the session answers the tool calls [tcs]
    one after the other: each one's arguments parse, the session returns
    a result whose first item is a text (events [evs]), and the messages
    [tms] carry those texts under the calls' ids. *)
Inductive Answered (s : ClientSession.t)
    : list Event -> list OpenAI.ToolCall -> list Event -> list Message
      -> Prop :=
| answered_nil (t : list Event) : Answered s t [] [] []
| answered_cons (t : list Event) (tc : OpenAI.ToolCall)
    (tcs : list OpenAI.ToolCall) (arguments : PyVal)
    (result : Mcp.CallToolResult) (text : string) (rest : list Mcp.Content)
    (evs : list Event) (tms : list Message) :
    json_loads (OpenAI.arguments (OpenAI.function tc)) = inr arguments ->
    ClientSession.call_tool s t (OpenAI.name (OpenAI.function tc)) arguments
      = inr result ->
    Mcp.content result = Mcp.TextContent text :: rest ->
    Answered s
      (t ++ [EvCallTool (OpenAI.name (OpenAI.function tc)) arguments
               (inr result)])
      tcs evs tms ->
    Answered s t (tc :: tcs)
      (EvCallTool (OpenAI.name (OpenAI.function tc)) arguments (inr result)
       :: evs)
      (MDict [("role", PStr "tool");
              ("tool_call_id", PStr (OpenAI.id tc));
              ("content", PStr text)] :: tms).

Variable self : Client.MCPOpenAIClient.
Variable query : string.

(** The request of line 65. *)
Definition first_request (listed : Mcp.ListToolsResult) : Request.t :=
  {| Request.model := Client.model self;
     Request.messages :=
       [MDict [("role", PStr "user"); ("content", PStr query)]];
     Request.tools := Some (map Client.openai_tool (Mcp.tools listed));
     Request.tool_choice := "auto" |}.

(** The request of line 77, after the tool messages [tms]. *)
Definition follow_up (listed : Mcp.ListToolsResult)
    (m : OpenAI.ChatCompletionMessage) (tms : list Message) : Request.t :=
  {| Request.model := Client.model self;
     Request.messages :=
       MDict [("role", PStr "user"); ("content", PStr query)]
       :: MObj m :: tms;
     Request.tools := Some (map Client.openai_tool (Mcp.tools listed));
     Request.tool_choice := "none" |}.

(** Line 78: [final_response.choices[0].message.content]. *)
Definition final_answer (res : Result OpenAI.ChatCompletion)
    : Result (option string) :=
  match res with
  | inl e => inl e
  | inr response =>
      match OpenAI.choices response with
      | [] => inl IndexError
      | choice :: _ => inr (OpenAI.content (OpenAI.message choice))
      end
  end.

(** The interactions of one call of [process_query] and its outcome:
    it stops before any request to the model; or the first request
    brings no message; or the message asks for no tool; or a tool call
    fails; or every tool call is answered and the follow-up is sent. *)
Inductive ProcessRun : list Event -> Result (option string) -> Prop :=
| run_unsent (d : list Event) (e : Exception) :
    llm_round_trips d = 0 -> tool_dispatches d = 0 ->
    ProcessRun d (inl e)
| run_unanswered (listed : Mcp.ListToolsResult)
    (res : Result OpenAI.ChatCompletion) (e : Exception) :
    first_message res = None ->
    ProcessRun [EvListTools (inr listed);
                EvCreate (first_request listed) res] (inl e)
| run_direct (listed : Mcp.ListToolsResult)
    (response : OpenAI.ChatCompletion) (m : OpenAI.ChatCompletionMessage) :
    first_message (inr response) = Some m ->
    Client.truthy_list (OpenAI.tool_calls m) = false ->
    ProcessRun [EvListTools (inr listed);
                EvCreate (first_request listed) (inr response)]
               (inr (OpenAI.content m))
| run_aborted (listed : Mcp.ListToolsResult)
    (response : OpenAI.ChatCompletion) (m : OpenAI.ChatCompletionMessage)
    (tcs : list OpenAI.ToolCall) (n : nat) (evs : list Event)
    (tms : list Message) (tail : list Event) (e : Exception) :
    first_message (inr response) = Some m ->
    OpenAI.tool_calls m = Some tcs ->
    n < length tcs ->
    Forall3 resolves (take n tcs) evs tms ->
    tail = [] \/ (exists name arguments res,
                    tail = [EvCallTool name arguments res]) ->
    ProcessRun ([EvListTools (inr listed);
                 EvCreate (first_request listed) (inr response);
                 EvPrint (ToolCalling (Some tcs))] ++ evs ++ tail)
               (inl e)
| run_followed_up (listed : Mcp.ListToolsResult)
    (response : OpenAI.ChatCompletion) (m : OpenAI.ChatCompletionMessage)
    (tcs : list OpenAI.ToolCall) (evs : list Event) (tms : list Message)
    (res : Result OpenAI.ChatCompletion) :
    first_message (inr response) = Some m ->
    OpenAI.tool_calls m = Some tcs ->
    tcs <> [] ->
    Forall3 resolves tcs evs tms ->
    ProcessRun ([EvListTools (inr listed);
                 EvCreate (first_request listed) (inr response);
                 EvPrint (ToolCalling (Some tcs))] ++ evs
                ++ [EvCreate (follow_up listed m tms) res])
               (final_answer res).

End Runs.

(** ** Properties of the history a computation writes *)

(** Every event [m] adds satisfies [P]. *)
Definition emits {A : Type} (P : Event -> Prop) (m : M A) : Prop :=
  forall w w' out, m w = (w', out) ->
    exists d, trace w' = trace w ++ d /\ Forall P d.

(** No collaborator failed in [d]. *)
Definition quiet (d : list Event) : Prop :=
  Forall (fun ev => failure ev = None) d.


(** ** A session served by server.py, and scripted models *)

Module Demo.

Definition render (v : PyVal) : string :=
  match v with
  | PInt n => pretty n
  | PStr s => s
  | _ => "None"
  end.

Definition schema_type (t : Server.PyType) : PyVal :=
  match t with
  | Server.TInt => PStr "integer"
  | Server.TStr => PStr "string"
  | Server.TBool => PStr "boolean"
  end.

Definition tool_of (e : Server.ToolEntry) : Mcp.Tool :=
  {| Mcp.name := Server.entry_name e;
     Mcp.description := Server.entry_description e;
     Mcp.inputSchema :=
       PDict (map (fun p => (fst p, schema_type (snd p)))
                  (Server.input_schema e)) |}.

(** A session whose far end is [Server.mcp]. *)
Definition session : ClientSession.t :=
  {| ClientSession.initialize := fun _ => inr tt;
     ClientSession.list_tools := fun _ =>
       inr {| Mcp.tools := map tool_of (Server.list_tools Server.mcp) |};
     ClientSession.call_tool := fun _ name arguments =>
       match arguments with
       | PDict d =>
           match Server.invoke Server.mcp name d with
           | inr v => inr {| Mcp.content := [Mcp.TextContent (render v)];
                             Mcp.isError := false |}
           | inl e => inl e
           end
       | _ => inl InvalidArguments
       end |}.

Definition quote : string := String (ascii_of_nat 34) EmptyString.

(** The JSON text of the arguments a=1, b=1. *)
Definition one_one : string :=
  "{" +:+ quote +:+ "a" +:+ quote +:+ ": 1, "
      +:+ quote +:+ "b" +:+ quote +:+ ": 1}".

(** A parser that knows this one text. *)
Definition json_loads (s : string) : Result PyVal :=
  if String.eqb s one_one then inr (PDict [("a", PInt 1); ("b", PInt 1)])
  else inl JSONDecodeError.

Definition request_of (tool : string) : OpenAI.ToolCall :=
  {| OpenAI.id := "call_1";
     OpenAI.function := {| OpenAI.name := tool;
                           OpenAI.arguments := one_one |} |}.

Definition says (text : string) : OpenAI.ChatCompletion :=
  {| OpenAI.choices :=
       [{| OpenAI.message := {| OpenAI.content := Some text;
                                OpenAI.tool_calls := None |} |}] |}.

Definition asks (tool : string) : OpenAI.ChatCompletion :=
  {| OpenAI.choices :=
       [{| OpenAI.message :=
             {| OpenAI.content := None;
                OpenAI.tool_calls := Some [request_of tool] |} |}] |}.

(** A model that asks for [tool] while it may, then answers. *)
Definition model_using (tool : string) : AsyncOpenAI.t :=
  {| AsyncOpenAI.create := fun _ req =>
       if String.eqb (Request.tool_choice req) "auto" then inr (asks tool)
       else inr (says "1 plus 1 is 2") |}.

(** A model that answers at once. *)
Definition model_plain : AsyncOpenAI.t :=
  {| AsyncOpenAI.create := fun _ _ => inr (says "Hello") |}.

Definition client (llm : AsyncOpenAI.t) : Client.MCPOpenAIClient :=
  {| Client.session := Some session;
     Client.openai_client := llm;
     Client.model := "gpt-4o" |}.

Definition manager {A : Type} (x : A) : ContextManager A :=
  {| aenter := fun _ => inr x; aexit := fun _ _ => inr false |}.

Definition env (llm : AsyncOpenAI.t) : Env :=
  {| new_AsyncOpenAI := fun _ => inr llm;
     sse_client := fun _ => manager (0, 1);
     new_ClientSession := fun _ => manager session |}.

Definition start : World := {| trace := []; heap := [] |}.

(** The scenario of the spec and two variations: the model asks for
    "add"; it answers at once; it asks for a tool nobody registered. *)
Definition question : string := "What's 1 plus 1?".

Definition add_run : World * Result (option string) :=
  Client.process_query json_loads (client (model_using "add")) question
    start.

Definition plain_run : World * Result (option string) :=
  Client.process_query json_loads (client model_plain) question start.

Definition mul_run : World * Result (option string) :=
  Client.process_query json_loads (client (model_using "mul")) question
    start.

Definition listed : Mcp.ListToolsResult :=
  {| Mcp.tools := map tool_of (Server.list_tools Server.mcp) |}.

(** What precedes the tool call in [add_run] and [mul_run]. *)
Definition opening (tool : string) : list Event :=
  [EvListTools (inr listed);
   EvCreate (first_request (client (model_using tool)) question listed)
     (inr (asks tool));
   EvPrint (ToolCalling (Some [request_of tool]))].

Definition one_one_value : PyVal := PDict [("a", PInt 1); ("b", PInt 1)].

End Demo.

(** ** More readings of a history *)

(** The line [connect_to_server] and client-sse.py print for a tool. *)
Definition tool_line (tool : Mcp.Tool) : Event :=
  EvPrint (Text ("  - " +:+ Mcp.name tool +:+ ": "
                 +:+ str_opt (Mcp.description tool))).

(** A tool-role message, whatever its id and text. *)
Definition tool_role (tm : Message) : Prop :=
  exists id text,
    tm = MDict [("role", PStr "tool");
                ("tool_call_id", PStr id);
                ("content", PStr text)].

(** What client-sse.py does with the answer to its tool call: the line
    it prints, if any, and how the body ends. *)
Definition sse_ending (res : Result Mcp.CallToolResult)
    : list Event * Result unit :=
  match res with
  | inl e => ([], inl e)
  | inr result =>
      match Mcp.content result with
      | [] => ([], inl IndexError)
      | Mcp.TextContent text :: _ =>
          ([EvPrint (Text ("2 + 3 = " +:+ text))], inr tt)
      | _ :: _ => ([], inl (AttributeError "text"))
      end
  end.

(** The tool call [tc] went to the session as the event [ev]: under the
    name the model gave, with the parsed arguments. *)
Definition sent_as (json_loads : string -> Result PyVal)
    (tc : OpenAI.ToolCall) (ev : Event) : Prop :=
  exists arguments res,
    json_loads (OpenAI.arguments (OpenAI.function tc)) = inr arguments /\
    ev = EvCallTool (OpenAI.name (OpenAI.function tc)) arguments res.


(** * Theorems *)
(** ** server.py *)

Section ServerFacts.

Import Server.

Lemma find_tool_mcp (n : string) :
  find_tool n (registry mcp) =
  if String.eqb n "add" then nth_error (registry mcp) 0 else None.
Proof. cbn. destruct (String.eqb n "add"); reflexivity. Qed.

(** C1: invoking the "add" tool with integer arguments a and b returns
    a + b, on Python's unbounded integers (no overflow, no wrap-around):
    the handler itself computes the sum, and so does the registry's
    [invoke] for any argument dictionary that binds "a" to a and "b"
    to b. *)
Theorem add_tool_returns_sum (a b : Z) (arguments : list (string * PyVal)) :
  dict_get "a" arguments = Some (PInt a) ->
  dict_get "b" arguments = Some (PInt b) ->
  add a b = (a + b)%Z /\
  invoke mcp "add" arguments = inr (PInt (a + b)).
Proof.
  intros Ha Hb. split; [reflexivity|].
  unfold invoke. rewrite find_tool_mcp. cbn.
  rewrite Ha, Hb. reflexivity.
Qed.

Lemma add_tool_returns_sum_witness :
  add 2 3 = 5%Z /\
  invoke mcp "add" [("a", PInt 2); ("b", PInt 3)] = inr (PInt 5).
Proof.
  apply (add_tool_returns_sum 2 3 [("a", PInt 2); ("b", PInt 3)]);
    reflexivity.
Defined.

(** C7: the server's registry holds exactly one entry: the tool named
    "add", described as "Add two numbers together", whose input schema
    declares the integer parameters a and b and whose output is an
    integer; any other name is unknown to [invoke]. *)
Theorem registry_is_add_only :
  map descriptor (list_tools mcp) =
    [("add", Some "Add two numbers together",
      [("a", TInt); ("b", TInt)], TInt)] /\
  length (list_tools mcp) = 1 /\
  forall (n : string) (arguments : list (string * PyVal)),
    n <> "add" -> invoke mcp n arguments = inl (UnknownTool n).
Proof.
  split; [reflexivity|]. split; [reflexivity|].
  intros n arguments Hn. unfold invoke. rewrite find_tool_mcp.
  destruct (String.eqb_spec n "add"); [contradiction|reflexivity].
Qed.

End ServerFacts.

Lemma registry_is_add_only_witness :
  Server.invoke Server.mcp "mul" [("a", PInt 2); ("b", PInt 3)] =
  inl (UnknownTool "mul").
Proof.
  apply (proj2 (proj2 registry_is_add_only) "mul"). discriminate.
Defined.

(** ** The monad *)

Section MonadFacts.

Context {A B : Type}.

Lemma bind_ok (m : M A) (k : A -> M B) (w w1 : World) (a : A) :
  m w = (w1, inr a) -> bind m k w = k a w1.
Proof. intros H. unfold bind. rewrite H. reflexivity. Qed.

Lemma bind_err (m : M A) (k : A -> M B) (w w1 : World) (e : Exception) :
  m w = (w1, inl e) -> bind m k w = (w1, inl e).
Proof. intros H. unfold bind. rewrite H. reflexivity. Qed.

(** Either the first part fails and so does the whole, or it returns
    and the rest runs from there. *)
Lemma bind_inv (m : M A) (k : A -> M B) (w w' : World) (out : Result B) :
  bind m k w = (w', out) ->
  (exists e, m w = (w', inl e) /\ out = inl e) \/
  (exists w1 a, m w = (w1, inr a) /\ k a w1 = (w', out)).
Proof.
  unfold bind. destruct (m w) as [w1 [e|a]]; intros H.
  - left. exists e. inversion H; subst. auto.
  - right. exists w1, a. auto.
Qed.

End MonadFacts.

Lemma lookup_alloc (h : list (list Message)) (l : list Message) :
  (h ++ [l]) !! length h = Some l.
Proof. apply list_lookup_middle. reflexivity. Qed.

(** ** client.py: the three helpers *)

Section ClientFacts.

Variable json_loads : string -> Result PyVal.

Local Abbreviation dispatch := (Client.dispatch json_loads).
Local Abbreviation _handle_tool_calls := (Client._handle_tool_calls json_loads).
Local Abbreviation process_query := (Client.process_query json_loads).

(** C6: every descriptor the session lists is translated to
    {type: "function", function: {name, description, parameters}} with
    the descriptor's name, description and input schema; the translated
    list has the length and the order of the listed one.  (When the
    session fails to list, so does the translation, with the same
    exception.) *)
Theorem get_mcp_tools_translation (self : Client.MCPOpenAIClient)
    (s : ClientSession.t) (w : World) :
  Client.session self = Some s ->
  let res := ClientSession.list_tools s (trace w) in
  fst (Client.get_mcp_tools self w) = emit (EvListTools res) w /\
  (forall e, res = inl e -> snd (Client.get_mcp_tools self w) = inl e) /\
  (forall listed, res = inr listed ->
     exists out,
       snd (Client.get_mcp_tools self w) = inr out /\
       length out = length (Mcp.tools listed) /\
       forall (i : nat) (tool : Mcp.Tool),
         Mcp.tools listed !! i = Some tool ->
         out !! i =
         Some (PDict
                 [("type", PStr "function");
                  ("function",
                   PDict [("name", PStr (Mcp.name tool));
                          ("description",
                           match Mcp.description tool with
                           | Some text => PStr text
                           | None => PNone
                           end);
                          ("parameters", Mcp.inputSchema tool)])])).
Proof.
  intros Hs res.
  unfold Client.get_mcp_tools, Client.session_attr, bind, await_list_tools.
  rewrite Hs. cbn. fold res.
  destruct res as [e|listed] eqn:Hres; cbn.
  - split; [reflexivity|]. split; [congruence|]. discriminate.
  - split; [reflexivity|]. split; [discriminate|].
    intros listed' [= <-].
    exists (map Client.openai_tool (Mcp.tools listed)).
    split; [reflexivity|]. split; [apply length_map|].
    intros i tool Hi. rewrite list_lookup_fmap, Hi. reflexivity.
Qed.

Lemma get_mcp_tools_translation_witness :
  exists out,
    snd (Client.get_mcp_tools (Demo.client Demo.model_plain) Demo.start)
      = inr out /\
    out !! 0 =
    Some (PDict
            [("type", PStr "function");
             ("function",
              PDict [("name", PStr "add");
                     ("description", PStr "Add two numbers together");
                     ("parameters",
                      PDict [("a", PStr "integer");
                             ("b", PStr "integer")])])]).
Proof.
  destruct (get_mcp_tools_translation (Demo.client Demo.model_plain)
              Demo.session Demo.start eq_refl) as (_ & _ & H).
  destruct (H _ eq_refl) as (out & Hout & _ & Hnth).
  exists out. split; [exact Hout|].
  exact (Hnth 0 _ eq_refl).
Defined.

Lemma emit_neq (ev : Event) (w w0 : World) :
  trace w = trace w0 -> emit ev w <> w0.
Proof.
  intros Ht H. apply (f_equal (fun x => length (trace x))) in H.
  cbn in H. rewrite length_app, Ht in H. cbn in H. lia.
Qed.

Lemma items_of_points_to (w : World) (messages : option nat)
    (given : option (list Message)) :
  points_to w messages given ->
  Client.items_of messages w = (w, inr given).
Proof.
  destruct messages as [r|], given as [l|]; cbn; try contradiction;
    [|reflexivity].
  intros Hp. unfold bind, get_list. rewrite Hp. reflexivity.
Qed.

Lemma items_of_some (w : World) (r : nat) (l : list Message) :
  heap w !! r = Some l -> Client.items_of (Some r) w = (w, inr (Some l)).
Proof. apply (items_of_points_to w (Some r) (Some l)). Qed.

(** What [_send_to_openai] does, case by case. *)
Lemma send_to_openai_run (self : Client.MCPOpenAIClient)
    (query : option string) (messages : option nat)
    (tools : option (list PyVal)) (allow_tool_calls : bool) (w : World)
    (given : option (list Message)) :
  points_to w messages given ->
  let request := fun history =>
    {| Request.model := Client.model self;
       Request.messages := history;
       Request.tools := tools;
       Request.tool_choice :=
         if allow_tool_calls then "auto" else "none" |} in
  let answer := fun req =>
    AsyncOpenAI.create (Client.openai_client self) (trace w) req in
  Client._send_to_openai self query messages tools allow_tool_calls w =
  if negb (Client.truthy_list given) && negb (Client.truthy_str query)
  then (w, inl Client.missing_input)
  else if negb (Client.truthy_list given)
  then let history := [MDict [("role", PStr "user");
                              ("content", py_opt_str query)]] in
       (emit (EvCreate (request history) (answer (request history)))
          (alloc history w), answer (request history))
  else (emit (EvCreate (request (default [] given))
                (answer (request (default [] given)))) w,
        answer (request (default [] given))).
Proof.
  intros Hp request answer.
  pose proof (items_of_points_to _ _ _ Hp) as Hgiven.
  unfold Client._send_to_openai.
  rewrite (bind_ok _ _ _ _ _ Hgiven).
  destruct (negb (Client.truthy_list given)) eqn:Hl; cbn [andb].
  - destruct (negb (Client.truthy_str query)); [reflexivity|].
    erewrite bind_ok by reflexivity.
    erewrite bind_ok by (apply items_of_some, lookup_alloc).
    reflexivity.
  - rewrite (bind_ok _ _ w w messages eq_refl).
    rewrite (bind_ok _ _ _ _ _ Hgiven). reflexivity.
Qed.

(** C9: [_send_to_openai] raises its [ValueError], with nothing sent,
    exactly when [messages] is [None] or empty and [query] is [None] or
    empty.  With [messages] absent or empty and a non-empty [query], it
    sends the one-message history [{role: "user", content: query}]; with
    a non-empty [messages] it sends that history.  In both cases the
    outcome is the provider's answer to the single request. *)
Theorem send_to_openai_guard (self : Client.MCPOpenAIClient)
    (query : option string) (messages : option nat)
    (tools : option (list PyVal)) (allow_tool_calls : bool) (w : World)
    (given : option (list Message)) :
  points_to w messages given ->
  let out :=
    Client._send_to_openai self query messages tools allow_tool_calls w in
  let request := fun history =>
    {| Request.model := Client.model self;
       Request.messages := history;
       Request.tools := tools;
       Request.tool_choice :=
         if allow_tool_calls then "auto" else "none" |} in
  let answer := fun req =>
    AsyncOpenAI.create (Client.openai_client self) (trace w) req in
  (out = (w, inl (ValueError
                    "Either 'query' or 'messages' must be provided."))
   <-> (given = None \/ given = Some []) /\
       (query = None \/ query = Some "")) /\
  ((given = None \/ given = Some []) ->
   forall q, query = Some q -> q <> "" ->
     let history := [MDict [("role", PStr "user"); ("content", PStr q)]] in
     out = (emit (EvCreate (request history) (answer (request history)))
              (alloc history w),
            answer (request history))) /\
  (forall history, given = Some history -> history <> [] ->
     out = (emit (EvCreate (request history) (answer (request history))) w,
            answer (request history))).
Proof.
  intros Hp out request answer.
  assert (Hout : out = _) by apply (send_to_openai_run _ _ _ _ _ _ _ Hp).
  cbn zeta in Hout. fold request in Hout. fold answer in Hout.
  clearbody out. subst out. clear Hp.
  split; [|split].
  - split.
    + intros H.
      destruct given as [[|x l]|], query as [[|c q]|]; cbn in H;
        first [ split; auto; fail
              | exfalso; apply (f_equal fst) in H; cbn in H; revert H;
                apply emit_neq; reflexivity ].
    + intros [[-> | ->] [-> | ->]]; reflexivity.
  - intros Hg q -> Hq.
    destruct q as [|c q]; [contradiction|].
    destruct Hg as [->| ->]; reflexivity.
  - intros history -> Hh.
    destruct history as [|x l]; [contradiction|]. reflexivity.
Qed.

Lemma send_to_openai_guard_witness :
  Client._send_to_openai (Demo.client Demo.model_plain) (Some "Hi") None
    None true Demo.start =
  (emit (EvCreate
           {| Request.model := "gpt-4o";
              Request.messages :=
                [MDict [("role", PStr "user"); ("content", PStr "Hi")]];
              Request.tools := None;
              Request.tool_choice := "auto" |}
           (inr (Demo.says "Hello")))
     (alloc [MDict [("role", PStr "user"); ("content", PStr "Hi")]]
        Demo.start),
   inr (Demo.says "Hello")).
Proof.
  refine (proj1 (proj2 (send_to_openai_guard (Demo.client Demo.model_plain)
            (Some "Hi") None None true Demo.start None I))
            (or_introl eq_refl) "Hi" eq_refl _).
  discriminate.
Defined.

(** ** client.py: one tool call *)

Lemma dispatch_run (self : Client.MCPOpenAIClient) (s : ClientSession.t)
    (r : nat) (tc : OpenAI.ToolCall) (w : World) (ms : list Message) :
  Client.session self = Some s ->
  heap w !! r = Some ms ->
  dispatch self r tc w =
  match json_loads (OpenAI.arguments (OpenAI.function tc)) with
  | inl e => (w, inl e)
  | inr args =>
      let name := OpenAI.name (OpenAI.function tc) in
      let res := ClientSession.call_tool s (trace w) name args in
      let w1 := emit (EvCallTool name args res) w in
      match res with
      | inl e => (w1, inl e)
      | inr result =>
          match Mcp.content result with
          | [] => (w1, inl IndexError)
          | Mcp.TextContent text :: _ =>
              ({| trace := trace w1;
                  heap := <[r := ms ++ [Client.tool_message tc text]]>
                            (heap w) |},
               inr tt)
          | _ :: _ => (w1, inl (AttributeError "text"))
          end
      end
  end.
Proof.
  intros Hs Hms. unfold Client.dispatch, Client.session_attr.
  rewrite Hs. erewrite bind_ok by reflexivity.
  destruct (json_loads _) as [e|args] eqn:Hj.
  - erewrite bind_err by reflexivity. reflexivity.
  - erewrite bind_ok by reflexivity.
    unfold bind at 1. unfold await_call_tool. cbn zeta.
    destruct (ClientSession.call_tool s _ _ _) as [e|result]; [reflexivity|].
    destruct (Mcp.content result) as [|[text| |] rest]; try reflexivity.
    unfold bind, index0, ret, text_of, list_append. cbn.
    rewrite Hms. reflexivity.
Qed.

(** C10: for a tool call it dispatches, the orchestrator appends a
    tool-role message whose content is the text of the first item of the
    session's result, whatever items follow; when the result has no item
    the dispatch raises [IndexError], no message is appended and the
    loop stops there. *)
Theorem dispatch_takes_first_item (self : Client.MCPOpenAIClient)
    (s : ClientSession.t) (messages : nat) (tool_call : OpenAI.ToolCall)
    (others : list OpenAI.ToolCall) (w : World) (history : list Message)
    (arguments : PyVal) (result : Mcp.CallToolResult) :
  Client.session self = Some s ->
  heap w !! messages = Some history ->
  json_loads (OpenAI.arguments (OpenAI.function tool_call))
    = inr arguments ->
  ClientSession.call_tool s (trace w)
    (OpenAI.name (OpenAI.function tool_call)) arguments = inr result ->
  let called :=
    emit (EvCallTool (OpenAI.name (OpenAI.function tool_call)) arguments
            (inr result)) w in
  (forall text rest,
     Mcp.content result = Mcp.TextContent text :: rest ->
     dispatch self messages tool_call w =
     ({| trace := trace called;
         heap := <[messages :=
                     history ++
                     [MDict [("role", PStr "tool");
                             ("tool_call_id", PStr (OpenAI.id tool_call));
                             ("content", PStr text)]]]> (heap w) |},
      inr tt)) /\
  (Mcp.content result = [] ->
     dispatch self messages tool_call w = (called, inl IndexError) /\
     _handle_tool_calls self (tool_call :: others) messages w =
       (called, inl IndexError) /\
     heap called = heap w).
Proof.
  intros Hs Hh Hj Hc called.
  pose proof (dispatch_run self s messages tool_call w history Hs Hh) as H.
  rewrite Hj in H. cbn zeta in H. rewrite Hc in H.
  split.
  - intros text rest Hr. rewrite Hr in H. exact H.
  - intros Hr. rewrite Hr in H. split; [exact H|]. split; [|reflexivity].
    unfold Client._handle_tool_calls. cbn [for_each].
    apply bind_err. exact H.
Qed.

(** ** client.py: the loop over the tool calls *)

Lemma dispatch_cases (self : Client.MCPOpenAIClient) (s : ClientSession.t)
    (r : nat) (tc : OpenAI.ToolCall) (w w' : World) (ms : list Message)
    (out : Result unit) :
  Client.session self = Some s ->
  heap w !! r = Some ms ->
  dispatch self r tc w = (w', out) ->
  (exists ev tm, out = inr tt /\ resolves json_loads tc ev tm /\
     trace w' = trace w ++ [ev] /\
     heap w' = <[r := ms ++ [tm]]> (heap w)) \/
  (exists e tail, out = inl e /\ trace w' = trace w ++ tail /\
     heap w' = heap w /\
     (tail = [] \/
      exists name arguments res, tail = [EvCallTool name arguments res])).
Proof.
  intros Hs Hms. rewrite (dispatch_run self s r tc w ms Hs Hms).
  destruct (json_loads _) as [e|args] eqn:Hj.
  { intros [= <- <-]. right. exists e, []. rewrite app_nil_r. auto. }
  cbn zeta.
  destruct (ClientSession.call_tool s _ _ _) as [e|result] eqn:Hc.
  { intros [= <- <-]. right.
    exists e, [EvCallTool (OpenAI.name (OpenAI.function tc)) args (inl e)].
    repeat split; eauto. }
  destruct (Mcp.content result) as [|[text| |] rest] eqn:Hr;
    intros [= <- <-].
  - right.
    exists IndexError,
      [EvCallTool (OpenAI.name (OpenAI.function tc)) args (inr result)].
    repeat split; eauto.
  - left. eexists _, _. split; [reflexivity|]. split; [|split; reflexivity].
    exists args, result, text, rest. auto.
  - right.
    exists (AttributeError "text"),
      [EvCallTool (OpenAI.name (OpenAI.function tc)) args (inr result)].
    repeat split; eauto.
  - right.
    exists (AttributeError "text"),
      [EvCallTool (OpenAI.name (OpenAI.function tc)) args (inr result)].
    repeat split; eauto.
Qed.

(** The loop answers a prefix of the calls, one event and one message
    each, in order; it either answers them all or stops at the first
    failure, having sent at most that one call more. *)
Lemma handle_tool_calls_run (self : Client.MCPOpenAIClient)
    (s : ClientSession.t) (r : nat) (tcs : list OpenAI.ToolCall) :
  Client.session self = Some s ->
  forall (w w' : World) (ms : list Message) (out : Result unit),
    heap w !! r = Some ms ->
    _handle_tool_calls self tcs r w = (w', out) ->
    exists n evs tms tail,
      Forall3 (resolves json_loads) (take n tcs) evs tms /\
      trace w' = trace w ++ evs ++ tail /\
      heap w' = <[r := ms ++ tms]> (heap w) /\
      ((out = inr tt /\ n = length tcs /\ tail = []) \/
       (exists e, out = inl e /\ n < length tcs /\
          (tail = [] \/
           exists name arguments res,
             tail = [EvCallTool name arguments res]))).
Proof.
  intros Hs. unfold Client._handle_tool_calls.
  induction tcs as [|tc tcs IH]; intros w w' ms out Hms Hrun.
  - cbn in Hrun. injection Hrun as <- <-.
    exists 0, [], [], []. split; [constructor|].
    rewrite !app_nil_r. split; [reflexivity|].
    split; [symmetry; apply list_insert_id; exact Hms|]. left. auto.
  - cbn [for_each] in Hrun. apply bind_inv in Hrun.
    destruct Hrun as [(e & Hd & ->)|(w1 & [] & Hd & Hrest)].
    + destruct (dispatch_cases _ _ _ _ _ _ _ _ Hs Hms Hd)
        as [(ev & tm & Hout & _)|(e' & tail & _ & Ht & Hh & Htail)];
        [discriminate|].
      exists 0, [], [], tail. split; [constructor|].
      rewrite app_nil_r. cbn. split; [exact Ht|].
      split; [rewrite Hh; symmetry; apply list_insert_id; exact Hms|].
      right. exists e. split; [reflexivity|]. split; [lia|exact Htail].
    + destruct (dispatch_cases _ _ _ _ _ _ _ _ Hs Hms Hd)
        as [(ev & tm & _ & Hres & Ht & Hh)|(e' & tail & Hout & _)];
        [|discriminate].
      assert (Hms1 : heap w1 !! r = Some (ms ++ [tm])).
      { rewrite Hh. apply list_lookup_insert_eq.
        apply lookup_lt_Some with (x := ms). exact Hms. }
      destruct (IH w1 w' (ms ++ [tm]) out Hms1 Hrest)
        as (n & evs & tms & tail & Hall & Ht' & Hh' & Hend).
      exists (S n), (ev :: evs), (tm :: tms), tail.
      split; [cbn; constructor; assumption|].
      split; [rewrite Ht', Ht, <- !app_assoc; reflexivity|].
      split.
      { rewrite Hh', Hh, list_insert_insert_eq, <- app_assoc. reflexivity. }
      destruct Hend as [(-> & -> & ->)|(e & -> & Hn & Htail)].
      * left. auto.
      * right. exists e. split; [reflexivity|]. split; [cbn; lia|exact Htail].
Qed.

(** ** client.py: [process_query] *)

Lemma get_mcp_tools_run (self : Client.MCPOpenAIClient)
    (s : ClientSession.t) (w : World) :
  Client.session self = Some s ->
  Client.get_mcp_tools self w =
  (emit (EvListTools (ClientSession.list_tools s (trace w))) w,
   match ClientSession.list_tools s (trace w) with
   | inl e => inl e
   | inr listed => inr (map Client.openai_tool (Mcp.tools listed))
   end).
Proof.
  intros Hs. unfold Client.get_mcp_tools, Client.session_attr.
  rewrite Hs. unfold bind, await_list_tools, ret. cbn.
  destruct (ClientSession.list_tools s (trace w)); reflexivity.
Qed.

(** Every call of [process_query] is one of the runs of [ProcessRun]. *)
Lemma process_query_run (self : Client.MCPOpenAIClient) (query : string)
    (w w' : World) (out : Result (option string)) :
  process_query self query w = (w', out) ->
  exists d, trace w' = trace w ++ d /\ ProcessRun json_loads self query d out.
Proof.
  unfold Client.process_query. intros Hrun.
  destruct (Client.session self) as [s|] eqn:Hs.
  2: { unfold Client.get_mcp_tools, Client.session_attr in Hrun.
       rewrite Hs in Hrun. cbn in Hrun. injection Hrun as <- <-.
       exists []. rewrite app_nil_r. split; [reflexivity|].
       apply run_unsent; reflexivity. }
  apply bind_inv in Hrun. rewrite (get_mcp_tools_run _ _ _ Hs) in Hrun.
  destruct (ClientSession.list_tools s (trace w)) as [e|listed] eqn:Hl;
    cbn beta iota in Hrun.
  { destruct Hrun as [(e' & [= <- <-] & ->)|(w1 & a & [=] & _)].
    exists [EvListTools (inl e)]. split; [reflexivity|].
    apply run_unsent; reflexivity. }
  destruct Hrun as [(e' & [=] & _)|(w1 & tools & [= <- <-] & Hrun)].
  apply bind_inv in Hrun.
  destruct Hrun as [(e' & [=] & _)|(w2 & empty & [= <- <-] & Hrun)].
  apply bind_inv in Hrun.
  rewrite (send_to_openai_run self (Some query) (Some _) _ true _ (Some []))
    in Hrun by apply lookup_alloc.
  cbn zeta in Hrun.
  destruct query as [|c q].
  { destruct Hrun as [(e' & [= <- <-] & ->)|(w1 & a & [=] & _)].
    exists [EvListTools (inr listed)]. split; [reflexivity|].
    apply run_unsent; reflexivity. }
  set (query := String c q) in *.
  cbn [Client.truthy_list Client.truthy_str negb andb py_opt_str] in Hrun.
  fold (first_request self query listed) in Hrun.
  destruct (AsyncOpenAI.create _ _ _) as [e|response] eqn:Hc.
  { destruct Hrun as [(e' & [= <- <-] & ->)|(w1 & a & [=] & _)].
    exists [EvListTools (inr listed);
            EvCreate (first_request self query listed) (inl e)].
    split; [cbn; rewrite <- app_assoc; reflexivity|].
    apply run_unanswered. reflexivity. }
  destruct Hrun as [(e' & [=] & _)|(w3 & response' & [= <- <-] & Hrun)].
  apply bind_inv in Hrun.
  destruct (OpenAI.choices response) as [|choice choices] eqn:Hch.
  { destruct Hrun as [(e' & [= <- <-] & ->)|(w1 & a & [=] & _)].
    exists [EvListTools (inr listed);
            EvCreate (first_request self query listed) (inr response)].
    split; [cbn; rewrite <- app_assoc; reflexivity|].
    apply run_unanswered. cbn. rewrite Hch. reflexivity. }
  destruct Hrun as [(e' & [=] & _)|(w4 & choice' & [= <- <-] & Hrun)].
  set (m := OpenAI.message choice) in *.
  assert (Hm : first_message (inr response) = Some m).
  { cbn. rewrite Hch. reflexivity. }
  apply bind_inv in Hrun.
  destruct Hrun as [(e' & [=] & _)|(w5 & messages & [= <- <-] & Hrun)].
  destruct (OpenAI.tool_calls m) as [[|tc tcs]|] eqn:Htc;
    cbn [Client.truthy_list negb] in Hrun.
  1, 3: injection Hrun as <- <-;
    exists [EvListTools (inr listed);
            EvCreate (first_request self query listed) (inr response)];
    (split; [cbn; rewrite <- app_assoc; reflexivity|]);
    apply run_direct; [exact Hm|rewrite Htc; reflexivity].
  apply bind_inv in Hrun.
  destruct Hrun as [(e' & [=] & _)|(w6 & [] & [= <-] & Hrun)].
  apply bind_inv in Hrun. cbn [default] in Hrun.
  set (history := [MDict [("role", PStr "user"); ("content", PStr query)];
                   MObj m]) in *.
  match type of Hrun with
  | context [_handle_tool_calls self _ ?r ?w0] =>
      set (messages := r) in *; set (w0' := w0) in *
  end.
  assert (Hh : heap w0' !! messages = Some history)
    by apply lookup_alloc.
  assert (Ht : trace w0' =
               trace w ++ [EvListTools (inr listed);
                           EvCreate (first_request self query listed)
                             (inr response);
                           EvPrint (ToolCalling (Some (tc :: tcs)))]).
  { cbn. rewrite <- !app_assoc. reflexivity. }
  clearbody w0' messages.
  destruct Hrun as [(e & Hloop & ->)|(w7 & [] & Hloop & Hrun)];
    destruct (handle_tool_calls_run self s messages (tc :: tcs) Hs
                _ _ _ _ Hh Hloop)
      as (n & evs & tms & tail & Hall & Ht' & Hh' &
          [(Hout & -> & ->)|(e1 & Hout & Hn & Htail)]);
    try discriminate.
  - injection Hout as <-.
    eexists. split; [rewrite Ht', Ht, <- app_assoc; reflexivity|].
    eapply run_aborted; eauto.
  - rewrite firstn_all in Hall. rewrite app_nil_r in Ht'.
    apply bind_inv in Hrun.
    rewrite (send_to_openai_run self (Some "") (Some messages) _ false _
               (Some (history ++ tms))) in Hrun.
    2: { cbn. rewrite Hh'. apply list_lookup_insert_eq.
         apply lookup_lt_Some with (x := history). exact Hh. }
    cbn in Hrun. rewrite Ht', Ht in Hrun.
    fold (follow_up self query listed m tms) in Hrun.
    match type of Hrun with
    | context [AsyncOpenAI.create ?c ?t ?req] =>
        destruct (AsyncOpenAI.create c t req) as [e|final] eqn:Hc2
    end.
    + destruct Hrun as [(e' & [= <- <-] & ->)|(w1 & a & [=] & _)].
      exists ([EvListTools (inr listed);
               EvCreate (first_request self query listed) (inr response);
               EvPrint (ToolCalling (Some (tc :: tcs)))] ++ evs
              ++ [EvCreate (follow_up self query listed m tms) (inl e)]).
      split.
      { cbn [emit trace]. rewrite Ht', Ht, <- !app_assoc. reflexivity. }
      apply (run_followed_up json_loads self query listed response m
               (tc :: tcs) evs tms (inl e)); auto; discriminate.
    + destruct Hrun as [(e' & [=] & _)|(w8 & final' & [= <- <-] & Hrun)].
      assert (Hfin : w' = emit (EvCreate (follow_up self query listed m tms)
                                  (inr final)) w7 /\
                     out = final_answer (inr final)).
      { unfold bind, index0, final_answer in *.
        destruct (OpenAI.choices final) as [|ch chs];
          injection Hrun as <- <-; split; reflexivity. }
      destruct Hfin as [-> ->].
      exists ([EvListTools (inr listed);
               EvCreate (first_request self query listed) (inr response);
               EvPrint (ToolCalling (Some (tc :: tcs)))] ++ evs
              ++ [EvCreate (follow_up self query listed m tms) (inr final)]).
      split.
      { cbn [emit trace]. rewrite Ht', Ht, <- !app_assoc. reflexivity. }
      apply (run_followed_up json_loads self query listed response m
               (tc :: tcs) evs tms (inr final)); auto; discriminate.
Qed.

(** ** Counting in a history *)

Lemma llm_round_trips_app (d1 d2 : list Event) :
  llm_round_trips (d1 ++ d2) = llm_round_trips d1 + llm_round_trips d2.
Proof. unfold llm_round_trips. rewrite filter_app, length_app. reflexivity. Qed.

Lemma llm_round_trips_cons (ev : Event) (d : list Event) :
  llm_round_trips (ev :: d) =
  (if is_create ev then 1 else 0) + llm_round_trips d.
Proof. destruct ev; reflexivity. Qed.

Lemma calls_in_app (d1 d2 : list Event) :
  calls_in (d1 ++ d2) = calls_in d1 ++ calls_in d2.
Proof. apply filter_app. Qed.

Lemma calls_in_cons (ev : Event) (d : list Event) :
  calls_in (ev :: d) = if is_call_tool ev then ev :: calls_in d else calls_in d.
Proof. destruct ev; reflexivity. Qed.

Lemma first_create_none (d : list Event) :
  llm_round_trips d = 0 -> first_create d = None.
Proof.
  induction d as [|ev d IH]; [reflexivity|].
  destruct ev; cbn; try exact IH. discriminate.
Qed.

(** The events of answered tool calls: calls to the session, none of
    which failed, and no request to the model. *)
Lemma resolved_events (tcs : list OpenAI.ToolCall) (evs : list Event)
    (tms : list Message) :
  Forall3 (resolves json_loads) tcs evs tms ->
  llm_round_trips evs = 0 /\ calls_in evs = evs /\ quiet evs /\
  length evs = length tcs.
Proof.
  induction 1 as [|tc ev tm tcs evs tms Hr _ (IH1 & IH2 & IH3 & IH4)].
  - repeat split. constructor.
  - destruct Hr as (args & result & text & rest & _ & -> & _).
    repeat split.
    + exact IH1.
    + unfold calls_in in *. rewrite filter_cons_True by reflexivity.
      rewrite IH2. reflexivity.
    + constructor; [reflexivity|exact IH3].
    + cbn. rewrite IH4. reflexivity.
Qed.

Lemma resolved_messages (tcs : list OpenAI.ToolCall) (evs : list Event)
    (tms : list Message) :
  Forall3 (resolves json_loads) tcs evs tms ->
  Forall2 (fun tc tm => exists text,
             tm = MDict [("role", PStr "tool");
                         ("tool_call_id", PStr (OpenAI.id tc));
                         ("content", PStr text)]) tcs tms.
Proof.
  induction 1 as [|tc ev tm tcs evs tms Hr _ IH]; constructor; [|exact IH].
  destruct Hr as (args & result & text & rest & _ & _ & _ & ->).
  exists text. reflexivity.
Qed.

(** Where a history that ends in [x] can be cut. *)
Lemma cut_before_last {A : Type} (d0 before after : list A) (x y : A) :
  d0 ++ [x] = before ++ y :: after ->
  (after = [] /\ before = d0 /\ y = x) \/
  (exists after', after = after' ++ [x] /\ d0 = before ++ y :: after').
Proof.
  destruct after as [|z after _] using rev_ind; intros H.
  - left. apply app_inj_tail in H. destruct H as [-> ->]. auto.
  - right. exists after.
    rewrite app_comm_cons, app_assoc in H.
    apply app_inj_tail in H. destruct H as [-> ->]. auto.
Qed.

(** What each kind of run sends to the model. *)
Lemma run_round_trips (self : Client.MCPOpenAIClient) (query : string)
    (d : list Event) (out : Result (option string)) :
  ProcessRun json_loads self query d out ->
  llm_round_trips d <= 2.
Proof.
  destruct 1 as [d e H0 _| | |? ? ? ? ? evs ? tail ? _ _ _ Hall Htail
                 |? ? ? ? evs ? ? _ _ _ Hall].
  - rewrite H0. lia.
  - rewrite !llm_round_trips_cons. cbn. lia.
  - rewrite !llm_round_trips_cons. cbn. lia.
  - destruct (resolved_events _ _ _ Hall) as (H0 & _).
    rewrite !llm_round_trips_app, H0, !llm_round_trips_cons.
    destruct Htail as [->|(name & args & res & ->)];
      rewrite ?llm_round_trips_cons; cbn; lia.
  - destruct (resolved_events _ _ _ Hall) as (H0 & _).
    rewrite !llm_round_trips_app, H0, !llm_round_trips_cons. cbn. lia.
Qed.

(** C3: when the first response of the model carries a message that
    asks for no tool call, [process_query] returns that message's
    content, after exactly one request to the model and no tool call to
    the session. *)
Theorem no_tool_calls_one_round_trip (self : Client.MCPOpenAIClient)
    (query : string) (w w' : World) (out : Result (option string))
    (d : list Event) (req : Request.t) (response : OpenAI.ChatCompletion)
    (m : OpenAI.ChatCompletionMessage) :
  process_query self query w = (w', out) ->
  trace w' = trace w ++ d ->
  first_create d = Some (req, inr response) ->
  first_message (inr response) = Some m ->
  OpenAI.tool_calls m = None \/ OpenAI.tool_calls m = Some [] ->
  out = inr (OpenAI.content m) /\
  llm_round_trips d = 1 /\
  tool_dispatches d = 0.
Proof.
  intros Hrun Hd Hfirst Hm Hnone.
  destruct (process_query_run _ _ _ _ _ Hrun) as (d' & Hd' & Hshape).
  rewrite Hd' in Hd. apply app_inv_head in Hd. subst d'.
  destruct Hshape as [d e H0 _|listed res e Hres|listed response' m' Hm' _
                      |listed response' m' tcs n evs tms tail e Hm' Htc Hn _ _
                      |listed response' m' tcs evs tms res Hm' Htc Hne _].
  - rewrite (first_create_none _ H0) in Hfirst. discriminate.
  - cbn in Hfirst. injection Hfirst as _ ->. congruence.
  - cbn in Hfirst. injection Hfirst as _ ->.
    rewrite Hm in Hm'. injection Hm' as <-. auto.
  - cbn in Hfirst. injection Hfirst as _ ->.
    rewrite Hm in Hm'. injection Hm' as <-.
    destruct Hnone as [H|H]; rewrite H in Htc; [discriminate|].
    injection Htc as <-. cbn in Hn. lia.
  - cbn in Hfirst. injection Hfirst as _ ->.
    rewrite Hm in Hm'. injection Hm' as <-.
    destruct Hnone as [H|H]; rewrite H in Htc; congruence.
Qed.

(** A query that asked for tool calls and returns an answer went through
    exactly one follow-up request, the second and last request to the
    model, and returns the content of its response. *)
Lemma completed_query_followed_up (self : Client.MCPOpenAIClient)
    (query : string) (w w' : World) (answer : option string)
    (d : list Event) (req : Request.t) (response : OpenAI.ChatCompletion)
    (m : OpenAI.ChatCompletionMessage) (tcs : list OpenAI.ToolCall) :
  process_query self query w = (w', inr answer) ->
  trace w' = trace w ++ d ->
  first_create d = Some (req, inr response) ->
  first_message (inr response) = Some m ->
  OpenAI.tool_calls m = Some tcs ->
  tcs <> [] ->
  exists (before : list Event) (tms : list Message) (follow : Request.t)
         (final : OpenAI.ChatCompletion) (m2 : OpenAI.ChatCompletionMessage),
    d = before ++ [EvCreate follow (inr final)] /\
    llm_round_trips before = 1 /\
    llm_round_trips d = 2 /\
    Request.messages follow =
      MDict [("role", PStr "user"); ("content", PStr query)]
      :: MObj m :: tms /\
    Forall2 (fun tc tm => exists text,
               tm = MDict [("role", PStr "tool");
                           ("tool_call_id", PStr (OpenAI.id tc));
                           ("content", PStr text)]) tcs tms /\
    Request.tool_choice follow = "none" /\
    Request.tool_choice req = "auto" /\
    Request.tools follow = Request.tools req /\
    Request.model follow = Request.model req /\
    first_message (inr final) = Some m2 /\
    answer = OpenAI.content m2.
Proof.
  intros Hrun Hd Hfirst Hm Htcs Hne.
  destruct (process_query_run _ _ _ _ _ Hrun) as (d' & Hd' & Hshape).
  rewrite Hd' in Hd. apply app_inv_head in Hd. subst d'.
  inversion Hshape
    as [| |listed response' m' Hm' Hfalse
        | |listed response' m' tcs' evs tms res Hm' Htc _ Hall Heq Hout];
    subst.
  - cbn in Hfirst. injection Hfirst as _ ->.
    rewrite Hm in Hm'. injection Hm' as <-.
    rewrite Htcs in Hfalse. destruct tcs; [contradiction|discriminate].
  - cbn in Hfirst. injection Hfirst as <- ->.
    rewrite Hm in Hm'. injection Hm' as <-.
    rewrite Htcs in Htc. injection Htc as <-.
    destruct res as [e|final]; [discriminate|]. cbn in Hout.
    destruct (OpenAI.choices final) as [|choice choices] eqn:Hch;
      [discriminate|].
    injection Hout as <-.
    destruct (resolved_events _ _ _ Hall) as (H0 & _).
    exists ([EvListTools (inr listed);
             EvCreate (first_request self query listed) (inr response);
             EvPrint (ToolCalling (Some tcs))] ++ evs),
           tms, (follow_up self query listed m tms), final,
           (OpenAI.message choice).
    split; [rewrite <- app_assoc; reflexivity|].
    assert (H1 : llm_round_trips
                   ([EvListTools (inr listed);
                     EvCreate (first_request self query listed)
                       (inr response);
                     EvPrint (ToolCalling (Some tcs))] ++ evs) = 1).
    { rewrite llm_round_trips_app, H0, !llm_round_trips_cons.
      reflexivity. }
    split; [exact H1|].
    split.
    { rewrite app_assoc, llm_round_trips_app, H1, llm_round_trips_cons.
      reflexivity. }
    split; [reflexivity|].
    split; [exact (resolved_messages _ _ _ Hall)|].
    repeat split; try reflexivity.
    cbn. rewrite Hch. reflexivity.
Qed.

(** C2: whenever [process_query] sends a request to the model after a
    first one, every tool call of the first response has been answered
    before: the session's answers are the tool calls of the history that
    precedes the request, one per requested call and in the order of the
    response, and the request carries, after the user and assistant
    messages, one tool-role message per call, keyed by the call's id, in
    that order.  Nothing follows that request. *)
Theorem tool_messages_precede_follow_up (self : Client.MCPOpenAIClient)
    (query : string) (w w' : World) (out : Result (option string))
    (d before after : list Event) (req : Request.t)
    (res : Result OpenAI.ChatCompletion) :
  process_query self query w = (w', out) ->
  trace w' = trace w ++ d ->
  d = before ++ EvCreate req res :: after ->
  llm_round_trips before <> 0 ->
  exists (first : Request.t) (response : OpenAI.ChatCompletion)
         (m : OpenAI.ChatCompletionMessage) (tcs : list OpenAI.ToolCall)
         (tms : list Message),
    first_create before = Some (first, inr response) /\
    first_message (inr response) = Some m /\
    OpenAI.tool_calls m = Some tcs /\
    Forall3 (resolves json_loads) tcs (calls_in before) tms /\
    Request.messages req =
      MDict [("role", PStr "user"); ("content", PStr query)]
      :: MObj m :: tms /\
    length tms = length tcs /\
    quiet before /\
    llm_round_trips before = 1 /\
    after = [].
Proof.
  intros Hrun Hd Hcut Hfollow.
  destruct (process_query_run _ _ _ _ _ Hrun) as (d' & Hd' & Hshape).
  rewrite Hd' in Hd. apply app_inv_head in Hd. subst d'.
  assert (Hcount : llm_round_trips d =
                   llm_round_trips before + 1 + llm_round_trips after).
  { rewrite Hcut, llm_round_trips_app, llm_round_trips_cons. cbn. lia. }
  destruct Hshape as [d e H0 _|listed res0 e Hres|listed response m Hm _
                      |listed response m tcs n evs tms tail e Hm Htc Hn
                         Hall Htail
                      |listed response m tcs evs tms res0 Hm Htc Hne Hall].
  - lia.
  - rewrite !llm_round_trips_cons in Hcount. cbn in Hcount. lia.
  - rewrite !llm_round_trips_cons in Hcount. cbn in Hcount. lia.
  - destruct (resolved_events _ _ _ Hall) as (H0 & _).
    rewrite !llm_round_trips_app, H0, !llm_round_trips_cons in Hcount.
    destruct Htail as [->|(name & args & r & ->)];
      rewrite ?llm_round_trips_cons in Hcount; cbn in Hcount; lia.
  - destruct (resolved_events _ _ _ Hall) as (H0 & Hcalls & Hquiet & Hlen).
    rewrite app_assoc in Hcut, Hcount.
    set (d0 := [EvListTools (inr listed);
                EvCreate (first_request self query listed) (inr response);
                EvPrint (ToolCalling (Some tcs))] ++ evs) in *.
    assert (H1 : llm_round_trips d0 = 1).
    { unfold d0. rewrite llm_round_trips_app, H0, !llm_round_trips_cons.
      reflexivity. }
    apply cut_before_last in Hcut.
    destruct Hcut as [(-> & -> & [= -> ->])|(after' & -> & Hd0)].
    + exists (first_request self query listed), response, m, tcs, tms.
      split; [reflexivity|]. split; [exact Hm|]. split; [exact Htc|].
      split.
      { unfold d0. rewrite calls_in_app, Hcalls. exact Hall. }
      split; [reflexivity|].
      split; [symmetry; exact (Forall3_length_lr _ _ _ _ Hall)|].
      split.
      { unfold d0. apply Forall_app. split; [|exact Hquiet].
        repeat constructor. }
      auto.
    + exfalso. rewrite Hd0, llm_round_trips_app, llm_round_trips_cons in H1.
      cbn in H1. lia.
Qed.

(** ** client.py: the run in which every collaborator answers *)

Lemma handle_tool_calls_answered (self : Client.MCPOpenAIClient)
    (s : ClientSession.t) (r : nat) (t : list Event)
    (tcs : list OpenAI.ToolCall) (evs : list Event) (tms : list Message) :
  Client.session self = Some s ->
  Answered json_loads s t tcs evs tms ->
  forall (w : World) (ms : list Message),
    trace w = t ->
    heap w !! r = Some ms ->
    _handle_tool_calls self tcs r w =
    ({| trace := t ++ evs; heap := <[r := ms ++ tms]> (heap w) |}, inr tt).
Proof.
  intros Hs. unfold Client._handle_tool_calls.
  induction 1 as [t|t tc tcs args result text rest evs tms Hj Hc Hr _ IH];
    intros w ms Ht Hms.
  - cbn. rewrite !app_nil_r, (list_insert_id _ _ _ Hms), <- Ht.
    destruct w; reflexivity.
  - cbn [for_each].
    pose proof (dispatch_run self s r tc w ms Hs Hms) as Hd.
    rewrite Hj in Hd. cbn zeta in Hd. rewrite Ht, Hc, Hr in Hd.
    rewrite (bind_ok _ _ _ _ _ Hd).
    erewrite IH; [|cbn; rewrite Ht; reflexivity|].
    2: { cbn. apply list_lookup_insert_eq.
         apply lookup_lt_Some with (x := ms). exact Hms. }
    cbn [heap]. rewrite list_insert_insert_eq, <- !app_assoc.
    reflexivity.
Qed.

Lemma answered_resolves (s : ClientSession.t) (t : list Event)
    (tcs : list OpenAI.ToolCall) (evs : list Event) (tms : list Message) :
  Answered json_loads s t tcs evs tms ->
  Forall3 (resolves json_loads) tcs evs tms.
Proof.
  induction 1 as [t|t tc tcs args result text rest evs tms Hj Hc Hr _ IH];
    constructor; [|exact IH].
  exists args, result, text, rest. auto.
Qed.

(** When the first response asks for tool calls, [process_query]
    reaches the loop: the rest of the query is the loop, the follow-up
    request and the return, run from a state whose history ends with
    the listing, the first request and the print, and in which
    [messages] holds the user and assistant messages. *)
Lemma process_query_reaches_loop (self : Client.MCPOpenAIClient)
    (s : ClientSession.t) (query : string) (w : World)
    (listed : Mcp.ListToolsResult) (response : OpenAI.ChatCompletion)
    (m : OpenAI.ChatCompletionMessage) (tcs : list OpenAI.ToolCall) :
  Client.session self = Some s ->
  query <> "" ->
  ClientSession.list_tools s (trace w) = inr listed ->
  AsyncOpenAI.create (Client.openai_client self)
    (trace w ++ [EvListTools (inr listed)])
    (first_request self query listed) = inr response ->
  first_message (inr response) = Some m ->
  OpenAI.tool_calls m = Some tcs ->
  tcs <> [] ->
  exists (reached : World) (messages : nat),
    trace reached =
      trace w ++ [EvListTools (inr listed);
                  EvCreate (first_request self query listed) (inr response);
                  EvPrint (ToolCalling (Some tcs))] /\
    heap reached !! messages =
      Some [MDict [("role", PStr "user"); ("content", PStr query)];
            MObj m] /\
    process_query self query w =
    bind (_handle_tool_calls self tcs messages)
      (fun _ =>
         bind (Client._send_to_openai self (Some "") (Some messages)
                 (Some (map Client.openai_tool (Mcp.tools listed))) false)
           (fun final_response =>
              bind (index0 (OpenAI.choices final_response))
                (fun choice =>
                   ret (OpenAI.content (OpenAI.message choice)))))
      reached.
Proof.
  intros Hs Hq Hl Hc Hm Htcs Hne.
  destruct query as [|c q] eqn:Hquery; [contradiction|].
  rewrite <- Hquery in *.
  unfold first_message in Hm.
  destruct (OpenAI.choices response) as [|choice choices] eqn:Hch;
    [discriminate|]. injection Hm as Hm.
  eexists _, _. split; [|split].
  3: { unfold Client.process_query.
       erewrite bind_ok
         by (rewrite (get_mcp_tools_run _ _ _ Hs), Hl; reflexivity).
       erewrite bind_ok by reflexivity.
       erewrite bind_ok.
       2: { rewrite (send_to_openai_run self (Some query) (Some _) _ true _
                       (Some [])) by apply lookup_alloc.
            rewrite Hquery at 1. cbn.
            fold (first_request self query listed). rewrite Hc.
            reflexivity. }
       rewrite Hch. erewrite bind_ok by reflexivity. rewrite Hm.
       erewrite bind_ok by reflexivity.
       rewrite Htcs. destruct tcs as [|tc tcs']; [contradiction|].
       cbn [Client.truthy_list negb default].
       erewrite bind_ok by reflexivity.
       reflexivity. }
  - cbn. rewrite <- !app_assoc. reflexivity.
  - apply lookup_alloc.
Qed.

(** C4: let the first response of the model ask for the tool calls
    [tcs], let the session answer each of them, and let the model answer
    the follow-up.  Then [process_query] returns the content of that
    second response; its history is the listing, the first request, the
    tool calls and one follow-up request, so two requests to the model;
    and the follow-up carries the user message, the assistant message
    and one tool-role message per call, with tool use disabled
    (tool_choice "none"). *)
Theorem tool_calls_two_round_trips (self : Client.MCPOpenAIClient)
    (s : ClientSession.t) (query : string) (w : World)
    (listed : Mcp.ListToolsResult) (response final : OpenAI.ChatCompletion)
    (m m2 : OpenAI.ChatCompletionMessage) (tcs : list OpenAI.ToolCall)
    (evs : list Event) (tms : list Message) :
  let user := MDict [("role", PStr "user"); ("content", PStr query)] in
  let first :=
    {| Request.model := Client.model self;
       Request.messages := [user];
       Request.tools := Some (map Client.openai_tool (Mcp.tools listed));
       Request.tool_choice := "auto" |} in
  let follow :=
    {| Request.model := Client.model self;
       Request.messages := user :: MObj m :: tms;
       Request.tools := Some (map Client.openai_tool (Mcp.tools listed));
       Request.tool_choice := "none" |} in
  let opening :=
    [EvListTools (inr listed); EvCreate first (inr response);
     EvPrint (ToolCalling (Some tcs))] in
  Client.session self = Some s ->
  query <> "" ->
  ClientSession.list_tools s (trace w) = inr listed ->
  AsyncOpenAI.create (Client.openai_client self)
    (trace w ++ [EvListTools (inr listed)]) first = inr response ->
  first_message (inr response) = Some m ->
  OpenAI.tool_calls m = Some tcs ->
  tcs <> [] ->
  Answered json_loads s (trace w ++ opening) tcs evs tms ->
  AsyncOpenAI.create (Client.openai_client self)
    (trace w ++ opening ++ evs) follow = inr final ->
  first_message (inr final) = Some m2 ->
  exists w',
    process_query self query w = (w', inr (OpenAI.content m2)) /\
    trace w' = trace w ++ opening ++ evs ++ [EvCreate follow (inr final)] /\
    llm_round_trips (opening ++ evs ++ [EvCreate follow (inr final)]) = 2 /\
    length tms = length tcs.
Proof.
  intros user first follow opening Hs Hq Hl Hc Hm Htcs Hne Hans Hc2 Hm2.
  subst user first follow opening.
  destruct (process_query_reaches_loop self s query w listed response m
              tcs Hs Hq Hl Hc Hm Htcs Hne)
    as (reached & messages & Ht & Hh & ->).
  unfold first_request in Ht.
  unfold first_message in Hm2.
  destruct (OpenAI.choices final) as [|choice2 choices2] eqn:Hch2;
    [discriminate|]. injection Hm2 as Hm2.
  pose proof (answered_resolves _ _ _ _ _ Hans) as Hall.
  destruct (resolved_events _ _ _ Hall) as (H0 & _).
  rewrite <- Ht in Hans.
  eexists. split; [|split; [|split]].
  - erewrite bind_ok
      by exact (handle_tool_calls_answered self s messages _ _ _ _ Hs Hans
                  reached _ eq_refl Hh).
    erewrite bind_ok.
    2: { rewrite (send_to_openai_run self (Some "") (Some messages) _ false
                    _ (Some ([MDict [("role", PStr "user");
                                     ("content", PStr query)];
                              MObj m] ++ tms))).
         2: { cbn. apply list_lookup_insert_eq.
              apply lookup_lt_Some with (1 := Hh). }
         cbn. rewrite Ht, <- app_assoc. cbn [app] in Hc2 |- *.
         rewrite Hc2. reflexivity. }
    rewrite Hch2. cbn. rewrite Hm2. reflexivity.
  - cbn. rewrite <- !app_assoc. reflexivity.
  - rewrite app_assoc, llm_round_trips_app, llm_round_trips_app, H0.
    rewrite !llm_round_trips_cons. reflexivity.
  - symmetry. exact (Forall3_length_lr _ _ _ _ Hall).
Qed.

(** ** No recovery: failures of collaborators end the computation *)



























(** ** The scope of the transport connection *)

Section Emits.

Variable P : Event -> Prop.

Lemma emits_silent {A : Type} (m : M A) :
  (forall w, trace (fst (m w)) = trace w) -> emits P m.
Proof.
  intros H w w' out Hrun. exists []. rewrite app_nil_r.
  specialize (H w). rewrite Hrun in H. split; [exact H|constructor].
Qed.

Lemma emits_ret {A : Type} (a : A) : emits P (ret a).
Proof. apply emits_silent. reflexivity. Qed.

Lemma emits_raise {A : Type} (e : Exception) : emits P (@raise A e).
Proof. apply emits_silent. reflexivity. Qed.

Lemma emits_bind {A B : Type} (m : M A) (k : A -> M B) :
  emits P m -> (forall a, emits P (k a)) -> emits P (bind m k).
Proof.
  intros Hm Hk w w' out Hrun. apply bind_inv in Hrun.
  destruct Hrun as [(e & Hrun & ->)|(w1 & a & Hrun & Hrest)].
  - destruct (Hm _ _ _ Hrun) as (d & Ht & Hd). eauto.
  - destruct (Hm _ _ _ Hrun) as (d1 & Ht1 & Hd1).
    destruct (Hk a _ _ _ Hrest) as (d2 & Ht2 & Hd2).
    exists (d1 ++ d2). rewrite Ht2, Ht1, app_assoc.
    split; [reflexivity|]. apply Forall_app. auto.
Qed.

Lemma emits_if {A : Type} (b : bool) (m1 m2 : M A) :
  emits P m1 -> emits P m2 -> emits P (if b then m1 else m2).
Proof. destruct b; auto. Qed.

Lemma emits_one {A : Type} (m : M A) (event : Result A -> Event) :
  (forall w, exists res, m w = (emit (event res) w, res)) ->
  (forall res, P (event res)) ->
  emits P m.
Proof.
  intros Hm HP w w' out Hrun. destruct (Hm w) as (res & Hres).
  rewrite Hres in Hrun. injection Hrun as <- <-.
  exists [event res]. split; [reflexivity|]. constructor; auto.
Qed.

Lemma emits_initialize (s : ClientSession.t) :
  (forall res, P (EvInitialize res)) -> emits P (await_initialize s).
Proof. apply (emits_one _ EvInitialize). eauto. Qed.

Lemma emits_list_tools (s : ClientSession.t) :
  (forall res, P (EvListTools res)) -> emits P (await_list_tools s).
Proof. apply (emits_one _ EvListTools). eauto. Qed.

Lemma emits_call_tool (s : ClientSession.t) (name : string)
    (arguments : PyVal) :
  (forall res, P (EvCallTool name arguments res)) ->
  emits P (await_call_tool s name arguments).
Proof. apply (emits_one _ (EvCallTool name arguments)). eauto. Qed.

Lemma emits_create (c : AsyncOpenAI.t) (req : Request.t) :
  (forall res, P (EvCreate req res)) -> emits P (await_create c req).
Proof. apply (emits_one _ (EvCreate req)). eauto. Qed.

Lemma emits_index0 {A : Type} (l : list A) : emits P (index0 l).
Proof. destruct l; [apply emits_raise|apply emits_ret]. Qed.

Lemma emits_text_of (item : Mcp.Content) : emits P (text_of item).
Proof. destruct item; first [apply emits_ret|apply emits_raise]. Qed.

Lemma emits_get_list (r : nat) : emits P (get_list r).
Proof.
  apply emits_silent. intros w. unfold get_list.
  destruct (heap w !! r); reflexivity.
Qed.

Lemma emits_list_append (r : nat) (x : Message) :
  emits P (list_append r x).
Proof.
  apply emits_silent. intros w. unfold list_append.
  destruct (heap w !! r); reflexivity.
Qed.

Lemma emits_print (p : Printed) : P (EvPrint p) -> emits P (print p).
Proof.
  intros HP w w' out [= <- <-]. exists [EvPrint p].
  split; [reflexivity|]. constructor; auto.
Qed.

Lemma emits_for_each {A : Type} (l : list A) (body : A -> M unit) :
  (forall x, emits P (body x)) -> emits P (for_each l body).
Proof.
  intros Hbody. induction l as [|x l IH]; [apply emits_ret|].
  cbn [for_each]. apply emits_bind; auto.
Qed.

(** What an [async with] writes: a failed entry and nothing else; or
    the entry, what the body writes, and the exit as the last event. *)
Lemma async_with_run {A : Type} (what : Resource) (cm : ContextManager A)
    (body : A -> M unit) (w w' : World) (out : Result unit) :
  (forall x, emits P (body x)) ->
  async_with what cm body w = (w', out) ->
  (exists e, trace w' = trace w ++ [EvEnter what (Some e)] /\ out = inl e) \/
  (exists during exc res,
     trace w' = trace w ++ EvEnter what None :: during
                ++ [EvExit what exc res] /\
     Forall P during).
Proof.
  intros Hbody. unfold async_with.
  destruct (aenter cm (trace w)) as [e|x].
  - intros [= <- <-]. left. exists e. auto.
  - destruct (body x (emit (EvEnter what None) w)) as [w1 r] eqn:Hrun.
    intros [= <- _]. right.
    destruct (Hbody x _ _ _ Hrun) as (during & Ht & Hd).
    exists during, (exc_of r), (aexit cm (trace w1) (exc_of r)).
    split; [|exact Hd]. cbn. rewrite Ht. cbn.
    rewrite <- !app_assoc. reflexivity.
Qed.

Lemma emits_async_with {A : Type} (what : Resource) (cm : ContextManager A)
    (body : A -> M unit) :
  (forall err, P (EvEnter what err)) ->
  (forall exc res, P (EvExit what exc res)) ->
  (forall x, emits P (body x)) ->
  emits P (async_with what cm body).
Proof.
  intros Henter Hexit Hbody w w' out Hrun.
  destruct (async_with_run _ _ _ _ _ _ Hbody Hrun)
    as [(e & Ht & _)|(during & exc & res & Ht & Hd)];
    eexists; (split; [exact Ht|]).
  - constructor; auto.
  - constructor; [auto|]. apply Forall_app. split; [exact Hd|].
    constructor; auto.
Qed.

End Emits.

Lemma emits_session_attr (self : Client.MCPOpenAIClient) (method : string) :
  emits inside (Client.session_attr self method).
Proof.
  unfold Client.session_attr.
  destruct (Client.session self); [apply emits_ret|apply emits_raise].
Qed.

Lemma emits_items_of (messages : option nat) :
  emits inside (Client.items_of messages).
Proof.
  destruct messages as [r|]; [|apply emits_ret]. apply emits_silent.
  intros w. unfold Client.items_of, bind, get_list, ret.
  destruct (heap w !! r); reflexivity.
Qed.

(** The steps that leave the connection as it is. *)
Ltac inside_steps :=
  repeat first
    [ apply emits_bind; [|intros ?]
    | apply emits_if
    | apply emits_ret
    | apply emits_raise
    | apply emits_session_attr
    | apply emits_items_of
    | apply emits_index0
    | apply emits_text_of
    | apply emits_get_list
    | apply emits_list_append
    | apply emits_for_each; intros ?
    | apply emits_print; repeat split
    | apply emits_initialize; repeat split
    | apply emits_list_tools; repeat split
    | apply emits_call_tool; repeat split
    | apply emits_create; repeat split
    | apply emits_silent; reflexivity ].

Lemma emits_process_query (self : Client.MCPOpenAIClient) (query : string) :
  emits inside (process_query self query).
Proof.
  unfold Client.process_query, Client.get_mcp_tools,
    Client._send_to_openai, Client._handle_tool_calls, Client.dispatch.
  inside_steps.
Qed.

Lemma emits_connect_to_server (self : Client.MCPOpenAIClient)
    (s : ClientSession.t) :
  emits inside (Client.connect_to_server self s).
Proof. unfold Client.connect_to_server. inside_steps. Qed.

Lemma scoped_async_with (url : string)
    (cm : ContextManager (Stream * Stream)) (body : Stream * Stream -> M unit)
    (before : list Event) (w0 w w' : World) (out : Result unit) :
  (forall x, emits inside (body x)) ->
  Forall outside before ->
  trace w = trace w0 ++ before ->
  async_with (Transport url) cm body w = (w', out) ->
  exists d, trace w' = trace w0 ++ d /\ scoped d.
Proof.
  intros Hbody Hbefore Hw Hrun.
  destruct (async_with_run inside _ _ _ _ _ _ Hbody Hrun)
    as [(e & Ht & _)|(during & exc & res & Ht & Hd)].
  - exists (before ++ [EvEnter (Transport url) (Some e)]).
    rewrite Ht, Hw, <- app_assoc. split; [reflexivity|]. right.
    apply Forall_app. split; [exact Hbefore|]. repeat constructor.
  - exists (before ++ EvEnter (Transport url) None :: during
            ++ [EvExit (Transport url) exc res]).
    rewrite Ht, Hw, <- app_assoc. split; [reflexivity|]. left.
    exists before, (EvEnter (Transport url) None), during,
      (EvExit (Transport url) exc res).
    repeat split; assumption.
Qed.

(** C8: in both clients' [main], the transport connection is scoped.
    Whatever the collaborators answer, and whether [main] returns or
    raises, the history it writes is one of two kinds: the connection is
    acquired once, nothing before the acquisition uses it, and its
    release is the last event; or it was never acquired, and then it is
    neither used nor released. *)
Theorem connection_is_scoped (env : Env) (w : World) :
  (forall w' out, Client.main json_loads env w = (w', out) ->
     exists d, trace w' = trace w ++ d /\ scoped d) /\
  (forall w' out, ClientSse.main env w = (w', out) ->
     exists d, trace w' = trace w ++ d /\ scoped d).
Proof.
  split; intros w' out Hrun.
  - unfold Client.main in Hrun. apply bind_inv in Hrun.
    unfold Client.__init__ in Hrun.
    destruct (new_AsyncOpenAI env (trace w)) as [e|c].
    { destruct Hrun as [(e' & [= <- <-] & _)|(w1 & a & [=] & _)].
      exists [EvNewOpenAI (Some e)]. split; [reflexivity|]. right.
      repeat constructor. }
    destruct Hrun as [(e' & [=] & _)|(w1 & client & [= <- <-] & Hrun)].
    apply (scoped_async_with _ _ _ [EvNewOpenAI None] w)
      in Hrun; [exact Hrun| |repeat constructor|reflexivity].
    intros streams. apply emits_async_with; [repeat split..|].
    intros session. pose proof emits_connect_to_server.
    pose proof emits_process_query.
    inside_steps; auto.
  - unfold ClientSse.main in Hrun.
    apply (scoped_async_with _ _ _ [] w) in Hrun;
      [exact Hrun| |constructor|rewrite app_nil_r; reflexivity].
    intros streams. apply emits_async_with; [repeat split..|].
    intros session. inside_steps.
Qed.

End ClientFacts.

(** ** The scenarios of the spec, run through the theorems *)

Lemma dispatch_takes_first_item_witness :
  Client.dispatch Demo.json_loads (Demo.client Demo.model_plain) 0
    (Demo.request_of "add") {| trace := []; heap := [[]] |} =
  ({| trace := [EvCallTool "add" (PDict [("a", PInt 1); ("b", PInt 1)])
                  (inr {| Mcp.content := [Mcp.TextContent "2"];
                          Mcp.isError := false |})];
      heap := [[MDict [("role", PStr "tool");
                       ("tool_call_id", PStr "call_1");
                       ("content", PStr "2")]]] |},
   inr tt).
Proof.
  exact (proj1 (dispatch_takes_first_item Demo.json_loads
                  (Demo.client Demo.model_plain) Demo.session 0
                  (Demo.request_of "add") [] {| trace := []; heap := [[]] |}
                  [] (PDict [("a", PInt 1); ("b", PInt 1)])
                  {| Mcp.content := [Mcp.TextContent "2"];
                     Mcp.isError := false |}
                  eq_refl eq_refl eq_refl eq_refl)
           "2" [] eq_refl).
Defined.

Lemma no_tool_calls_one_round_trip_witness :
  snd Demo.plain_run = inr (Some "Hello") /\
  llm_round_trips (trace (fst Demo.plain_run)) = 1 /\
  tool_dispatches (trace (fst Demo.plain_run)) = 0.
Proof.
  apply (no_tool_calls_one_round_trip Demo.json_loads
           (Demo.client Demo.model_plain) Demo.question Demo.start
           (fst Demo.plain_run) (snd Demo.plain_run)
           (trace (fst Demo.plain_run))
           (first_request (Demo.client Demo.model_plain) Demo.question
              Demo.listed)
           (Demo.says "Hello")
           {| OpenAI.content := Some "Hello"; OpenAI.tool_calls := None |});
    first [reflexivity | left; reflexivity].
Defined.

Lemma tool_messages_precede_follow_up_witness :
  exists tms,
    Forall3 (resolves Demo.json_loads) [Demo.request_of "add"]
      [EvCallTool "add" Demo.one_one_value
         (inr {| Mcp.content := [Mcp.TextContent "2"];
                 Mcp.isError := false |})]
      tms /\
    length tms = 1.
Proof.
  destruct (tool_messages_precede_follow_up Demo.json_loads
              (Demo.client (Demo.model_using "add")) Demo.question
              Demo.start (fst Demo.add_run) (snd Demo.add_run)
              (trace (fst Demo.add_run))
              (Demo.opening "add" ++
               [EvCallTool "add" Demo.one_one_value
                  (inr {| Mcp.content := [Mcp.TextContent "2"];
                          Mcp.isError := false |})])
              []
              (follow_up (Demo.client (Demo.model_using "add"))
                 Demo.question Demo.listed
                 {| OpenAI.content := None;
                    OpenAI.tool_calls := Some [Demo.request_of "add"] |}
                 [Client.tool_message (Demo.request_of "add") "2"])
              (inr (Demo.says "1 plus 1 is 2"))
              eq_refl eq_refl eq_refl)
    as (first & response & m & tcs & tms & Hfirst & Hm & Htcs & Hall & _
        & Hlen & _).
  - discriminate.
  - injection Hfirst as _ <-. injection Hm as <-. injection Htcs as <-.
    exists tms. split; [exact Hall|exact Hlen].
Defined.


Lemma connection_is_scoped_witness :
  exists d,
    trace (fst (Client.main Demo.json_loads
                  (Demo.env (Demo.model_using "mul")) Demo.start)) =
      trace Demo.start ++ d /\
    scoped d.
Proof.
  exact (proj1 (connection_is_scoped Demo.json_loads
                  (Demo.env (Demo.model_using "mul")) Demo.start)
           _ _ (surjective_pairing _)).
Defined.

Lemma tool_calls_two_round_trips_witness :
  exists w',
    Demo.add_run = (w', inr (Some "1 plus 1 is 2")) /\
    llm_round_trips (trace w') = 2.
Proof.
  destruct (tool_calls_two_round_trips Demo.json_loads
              (Demo.client (Demo.model_using "add")) Demo.session
              Demo.question Demo.start Demo.listed
              (Demo.asks "add") (Demo.says "1 plus 1 is 2")
              {| OpenAI.content := None;
                 OpenAI.tool_calls := Some [Demo.request_of "add"] |}
              {| OpenAI.content := Some "1 plus 1 is 2";
                 OpenAI.tool_calls := None |}
              [Demo.request_of "add"]
              [EvCallTool "add" Demo.one_one_value
                 (inr {| Mcp.content := [Mcp.TextContent "2"];
                         Mcp.isError := false |})]
              [Client.tool_message (Demo.request_of "add") "2"])
    as (w' & Hrun & Htrace & Hcount & _);
    try reflexivity; try discriminate.
  - apply (answered_cons Demo.json_loads Demo.session _
             (Demo.request_of "add") [] Demo.one_one_value
             {| Mcp.content := [Mcp.TextContent "2"];
                Mcp.isError := false |} "2" [] [] []);
      try reflexivity.
    apply answered_nil.
  - exists w'. split; [exact Hrun|].
    rewrite Htrace. exact Hcount.
Defined.

(** ** More on client.py and client-sse.py *)

Section MoreFacts.

Variable json_loads : string -> Result PyVal.

Local Abbreviation dispatch := (Client.dispatch json_loads).
Local Abbreviation _handle_tool_calls := (Client._handle_tool_calls json_loads).
Local Abbreviation process_query := (Client.process_query json_loads).

(** A loop that only prints writes its lines, in order. *)
Lemma for_each_print_run {A : Type} (l : list A) (line : A -> Printed)
    (w : World) :
  for_each l (fun x => print (line x)) w =
  ({| trace := trace w ++ map (fun x => EvPrint (line x)) l;
      heap := heap w |}, inr tt).
Proof.
  revert w. induction l as [|x l IH]; intros w.
  - cbn. rewrite app_nil_r. destruct w; reflexivity.
  - cbn [for_each map]. unfold bind at 1. unfold print at 1.
    rewrite IH. cbn. rewrite <- app_assoc. reflexivity.
Qed.

(** [connect_to_server], case by case. *)
Lemma connect_to_server_cases (self : Client.MCPOpenAIClient)
    (session : ClientSession.t) (w : World) :
  Client.connect_to_server self session w =
  match ClientSession.initialize session (trace w) with
  | inl e => (emit (EvInitialize (inl e)) w, inl e)
  | inr u =>
      let t1 := trace w ++ [EvInitialize (inr u)] in
      match ClientSession.list_tools session t1 with
      | inl e => ({| trace := t1 ++ [EvListTools (inl e)];
                     heap := heap w |}, inl e)
      | inr listed =>
          ({| trace :=
                t1 ++ [EvListTools (inr listed);
                       EvPrint
                         (Text (nl +:+ "Connected to server with tools:"))]
                ++ map tool_line (Mcp.tools listed);
              heap := heap w |},
           inr {| Client.session := Some session;
                  Client.openai_client := Client.openai_client self;
                  Client.model := Client.model self |})
      end
  end.
Proof.
  unfold Client.connect_to_server.
  destruct (ClientSession.initialize session (trace w)) as [e0|u] eqn:Hi.
  - erewrite bind_err
      by (unfold await_initialize; rewrite Hi; reflexivity).
    reflexivity.
  - erewrite bind_ok
      by (unfold await_initialize; rewrite Hi; reflexivity).
    erewrite bind_ok by reflexivity.
    destruct (ClientSession.list_tools session
                (trace w ++ [EvInitialize (inr u)]))
      as [e0|listed0] eqn:Hl.
    + erewrite bind_err
        by (unfold await_list_tools; cbn; rewrite Hl; reflexivity).
      reflexivity.
    + erewrite bind_ok
        by (unfold await_list_tools; cbn; rewrite Hl; reflexivity).
      erewrite bind_ok by reflexivity.
      erewrite bind_ok by apply for_each_print_run.
      cbn. rewrite <- !app_assoc. reflexivity.
Qed.

(** X1: [connect_to_server] initializes the session before it lists the
    tools.  If [initialize] raises, the tools are not listed and nothing
    is printed; if [list_tools] raises, nothing is printed; in both
    cases the exception is the outcome.  Otherwise it prints the header
    and one line per listed tool, in the order of the listing, and
    returns the client with the session stored and its model and OpenAI
    client unchanged. *)
Theorem connect_to_server_run (self : Client.MCPOpenAIClient)
    (session : ClientSession.t) (w : World) :
  let init := ClientSession.initialize session (trace w) in
  let listing :=
    ClientSession.list_tools session (trace w ++ [EvInitialize init]) in
  (forall e, init = inl e ->
     Client.connect_to_server self session w =
     (emit (EvInitialize init) w, inl e)) /\
  (forall e, init = inr tt -> listing = inl e ->
     Client.connect_to_server self session w =
     (emit (EvListTools listing) (emit (EvInitialize init) w), inl e)) /\
  (forall listed, init = inr tt -> listing = inr listed ->
     exists w' client,
       Client.connect_to_server self session w = (w', inr client) /\
       Client.session client = Some session /\
       Client.openai_client client = Client.openai_client self /\
       Client.model client = Client.model self /\
       trace w' =
         trace w ++ [EvInitialize init; EvListTools listing;
                     EvPrint (Text (nl +:+ "Connected to server with tools:"))]
         ++ map tool_line (Mcp.tools listed) /\
       heap w' = heap w).
Proof.
  intros init listing. subst listing init.
  rewrite connect_to_server_cases.
  destruct (ClientSession.initialize session (trace w)) as [e0|[]].
  - split; [|split]; [|discriminate..].
    intros e [= <-]. reflexivity.
  - cbn zeta.
    destruct (ClientSession.list_tools session
                (trace w ++ [EvInitialize (inr tt)])) as [e0|listed0].
    + split; [discriminate|]. split; [|discriminate].
      intros e _ [= <-]. reflexivity.
    + split; [discriminate|]. split; [discriminate|].
      intros listed _ [= <-].
      eexists _, _. split; [reflexivity|].
      repeat split. cbn. rewrite <- !app_assoc. reflexivity.
Qed.

(** X2: a client as [__init__] builds it is not connected, and cannot
    be queried: [get_mcp_tools] and [process_query] raise
    [AttributeError] at [self.session.list_tools], and the loop over a
    non-empty list of tool calls raises it at [self.session.call_tool];
    none of them reaches a collaborator or creates a list. *)
Theorem unconnected_client_cannot_query (env : Env) (model : string)
    (w w1 : World) (client : Client.MCPOpenAIClient) :
  Client.__init__ env model w = (w1, inr client) ->
  Client.session client = None /\
  Client.model client = model /\
  trace w1 = trace w ++ [EvNewOpenAI None] /\
  Client.get_mcp_tools client w1 = (w1, inl (AttributeError "list_tools")) /\
  (forall query,
     process_query client query w1 =
     (w1, inl (AttributeError "list_tools"))) /\
  (forall tool_call others messages,
     _handle_tool_calls client (tool_call :: others) messages w1 =
     (w1, inl (AttributeError "call_tool"))).
Proof.
  unfold Client.__init__.
  destruct (new_AsyncOpenAI env (trace w)) as [e|c]; intros [= <- <-].
  repeat split.
Qed.

(** X3: an empty query is refused after the tools are listed and before
    the model is asked: [process_query] on the empty string lists the
    tools, then raises the [ValueError] of [_send_to_openai]; no request
    is sent to the model and no tool is called. *)
Theorem empty_query_is_refused (self : Client.MCPOpenAIClient)
    (s : ClientSession.t) (w : World) (listed : Mcp.ListToolsResult) :
  Client.session self = Some s ->
  ClientSession.list_tools s (trace w) = inr listed ->
  exists w',
    process_query self "" w =
    (w', inl (ValueError "Either 'query' or 'messages' must be provided."))
    /\
    trace w' = trace w ++ [EvListTools (inr listed)].
Proof.
  intros Hs Hl. eexists. split.
  - unfold Client.process_query.
    erewrite bind_ok
      by (rewrite (get_mcp_tools_run _ _ _ Hs), Hl; reflexivity).
    erewrite bind_ok by reflexivity.
    erewrite bind_err; [reflexivity|].
    rewrite (send_to_openai_run self (Some "") (Some _) _ true _ (Some []))
      by apply lookup_alloc.
    reflexivity.
  - reflexivity.
Qed.

(** X4: whatever the collaborators answer, one call of [process_query]
    sends at most two requests to the model, and never calls more tools
    than the first response of the model asked for. *)
Theorem process_query_is_bounded (self : Client.MCPOpenAIClient)
    (query : string) (w w' : World) (out : Result (option string))
    (d : list Event) :
  process_query self query w = (w', out) ->
  trace w' = trace w ++ d ->
  llm_round_trips d <= 2 /\
  (first_create d = None -> tool_dispatches d = 0) /\
  (forall req res, first_create d = Some (req, res) ->
     first_message res = None -> tool_dispatches d = 0) /\
  (forall req res m, first_create d = Some (req, res) ->
     first_message res = Some m ->
     tool_dispatches d <= length (default [] (OpenAI.tool_calls m))).
Proof.
  intros Hrun Hd.
  destruct (process_query_run json_loads _ _ _ _ _ Hrun)
    as (d' & Hd' & Hshape).
  rewrite Hd' in Hd. apply app_inv_head in Hd. subst d'.
  split; [exact (run_round_trips json_loads _ _ _ _ Hshape)|].
  destruct Hshape as [d e H0 Hcalls|listed res0 e Hres|listed response m0 Hm _
                      |listed response m0 tcs n evs tms tail e Hm Htc Hn
                         Hall Htail
                      |listed response m0 tcs evs tms res0 Hm Htc Hne Hall].
  - rewrite Hcalls. repeat split; intros; lia.
  - repeat split; intros; try reflexivity.
    unfold tool_dispatches. rewrite !calls_in_cons. cbn. lia.
  - repeat split; intros; try reflexivity.
    unfold tool_dispatches. rewrite !calls_in_cons. cbn. lia.
  - destruct (resolved_events json_loads _ _ _ Hall)
      as (_ & Hcalls & _ & Hlen).
    rewrite length_take in Hlen.
    assert (Hbound : tool_dispatches
              ([EvListTools (inr listed);
                EvCreate (first_request self query listed) (inr response);
                EvPrint (ToolCalling (Some tcs))] ++ evs ++ tail)
            <= length tcs).
    { unfold tool_dispatches.
      rewrite !calls_in_app, Hcalls, !calls_in_cons. cbn [is_call_tool].
      change (calls_in []) with (@nil Event). cbn [app].
      rewrite length_app, Hlen.
      destruct Htail as [->|(name & args & r & ->)];
        rewrite ?calls_in_cons; cbn; lia. }
    split; [discriminate|]. split.
    + intros req res [= _ <-] Hnone. congruence.
    + intros req res m [= _ <-] Hm'. rewrite Hm in Hm'.
      injection Hm' as <-. rewrite Htc. exact Hbound.
  - destruct (resolved_events json_loads _ _ _ Hall)
      as (_ & Hcalls & _ & Hlen).
    split; [discriminate|]. split.
    + intros req res [= _ <-] Hnone. congruence.
    + intros req res m [= _ <-] Hm'. rewrite Hm in Hm'.
      injection Hm' as <-. rewrite Htc. unfold tool_dispatches.
      rewrite !calls_in_app, Hcalls, !calls_in_cons. cbn.
      rewrite app_nil_r, Hlen. lia.
Qed.

(** X5: the first request [process_query] sends to the model comes
    right after a successful listing of the tools, and carries the
    client's model, the user message alone, every listed tool in the
    function-calling format (an empty list when none is listed) and
    tool_choice "auto". *)
Theorem first_request_shape (self : Client.MCPOpenAIClient)
    (query : string) (w w' : World) (out : Result (option string))
    (d : list Event) (req : Request.t)
    (res : Result OpenAI.ChatCompletion) :
  process_query self query w = (w', out) ->
  trace w' = trace w ++ d ->
  first_create d = Some (req, res) ->
  exists listed rest,
    d = EvListTools (inr listed) :: EvCreate req res :: rest /\
    Request.model req = Client.model self /\
    Request.messages req =
      [MDict [("role", PStr "user"); ("content", PStr query)]] /\
    Request.tools req =
      Some (map Client.openai_tool (Mcp.tools listed)) /\
    length (default [] (Request.tools req)) = length (Mcp.tools listed) /\
    Request.tool_choice req = "auto".
Proof.
  intros Hrun Hd Hfirst.
  destruct (process_query_run json_loads _ _ _ _ _ Hrun)
    as (d' & Hd' & Hshape).
  rewrite Hd' in Hd. apply app_inv_head in Hd. subst d'.
  destruct Hshape as [d e H0 _|listed res0 e _|listed response m0 _ _
                      |listed response m0 tcs n evs tms tail e _ _ _ _ _
                      |listed response m0 tcs evs tms res0 _ _ _ _].
  - rewrite (first_create_none _ H0) in Hfirst. discriminate.
  - injection Hfirst as <- <-. exists listed, [].
    repeat split. cbn. apply length_map.
  - injection Hfirst as <- <-. exists listed, [].
    repeat split. cbn. apply length_map.
  - injection Hfirst as <- <-. eexists listed, _.
    split; [reflexivity|]. repeat split. cbn. apply length_map.
  - injection Hfirst as <- <-. eexists listed, _.
    split; [reflexivity|]. repeat split. cbn. apply length_map.
Qed.

(** One turn of the loop sends at most its own tool call, and sends it
    when it succeeds. *)
Lemma dispatch_sends (self : Client.MCPOpenAIClient) (messages : nat)
    (tc : OpenAI.ToolCall) (w w' : World) (out : Result unit) :
  dispatch self messages tc w = (w', out) ->
  (trace w' = trace w /\ out <> inr tt) \/
  (exists ev, trace w' = trace w ++ [ev] /\ sent_as json_loads tc ev).
Proof.
  unfold Client.dispatch, Client.session_attr.
  destruct (Client.session self) as [s|].
  2: { intros [= <- <-]. left. split; [reflexivity|discriminate]. }
  erewrite bind_ok by reflexivity.
  destruct (json_loads _) as [e|args] eqn:Hj.
  { erewrite bind_err by reflexivity. intros [= <- <-].
    left. split; [reflexivity|discriminate]. }
  erewrite bind_ok by reflexivity. intros Hrun. right.
  exists (EvCallTool (OpenAI.name (OpenAI.function tc)) args
            (ClientSession.call_tool s (trace w)
               (OpenAI.name (OpenAI.function tc)) args)).
  split; [|eexists args, _; split; [exact Hj|reflexivity]].
  unfold bind, await_call_tool, index0, text_of, list_append, ret, raise
    in Hrun.
  cbn in Hrun.
  destruct (ClientSession.call_tool s _ _ _) as [e|result];
    [injection Hrun as <- _; reflexivity|].
  destruct (Mcp.content result) as [|[text| |] rest];
    try (injection Hrun as <- _; reflexivity).
  cbn in Hrun. destruct (heap w !! messages);
    injection Hrun as <- _; reflexivity.
Qed.

(** X6: the loop calls the tools the model asked for, in the order it
    asked, under the names it gave and with the parsed arguments: what
    goes to the session is, call by call, a prefix of the requested
    calls, and all of them when the loop returns.  It calls nothing
    else and never calls a tool twice. *)
Theorem tool_calls_follow_the_request (self : Client.MCPOpenAIClient)
    (tcs : list OpenAI.ToolCall) (messages : nat) (w w' : World)
    (out : Result unit) :
  _handle_tool_calls self tcs messages w = (w', out) ->
  exists d,
    trace w' = trace w ++ d /\
    length d <= length tcs /\
    Forall2 (sent_as json_loads) (take (length d) tcs) d /\
    (out = inr tt -> length d = length tcs).
Proof.
  unfold Client._handle_tool_calls. revert w.
  induction tcs as [|tc tcs IH]; intros w Hrun.
  - injection Hrun as <- <-. exists []. rewrite app_nil_r.
    split; [reflexivity|]. split; [cbn; lia|].
    split; [constructor|reflexivity].
  - cbn [for_each] in Hrun. apply bind_inv in Hrun.
    destruct Hrun as [(e & Hd & ->)|(w1 & [] & Hd & Hrest)].
    + destruct (dispatch_sends _ _ _ _ _ _ Hd)
        as [(Ht & _)|(ev & Ht & Hev)].
      * exists []. rewrite app_nil_r. split; [exact Ht|].
        split; [cbn; lia|]. split; [constructor|discriminate].
      * exists [ev]. split; [exact Ht|]. split; [cbn; lia|].
        split; [repeat constructor; exact Hev|discriminate].
    + destruct (dispatch_sends _ _ _ _ _ _ Hd)
        as [(_ & Hout)|(ev & Ht & Hev)]; [contradiction|].
      destruct (IH _ Hrest) as (d & Ht' & Hlen & Hall & Hdone).
      exists (ev :: d). rewrite Ht', Ht, <- app_assoc.
      split; [reflexivity|]. split; [cbn; lia|].
      split; [cbn; constructor; assumption|].
      intros Hok. cbn. rewrite (Hdone Hok). reflexivity.
Qed.

(** X7: the loop only appends to [messages].  The messages that were
    there stay, in place; what is added is one tool-role message per
    answered call, so at most one per requested call and exactly one
    per call when the loop returns; no other list changes and none is
    created.  This holds also when the loop stops on a failure. *)
Theorem messages_are_append_only (self : Client.MCPOpenAIClient)
    (s : ClientSession.t) (tcs : list OpenAI.ToolCall) (messages : nat)
    (w w' : World) (out : Result unit) (history : list Message) :
  Client.session self = Some s ->
  heap w !! messages = Some history ->
  _handle_tool_calls self tcs messages w = (w', out) ->
  exists added,
    heap w' !! messages = Some (history ++ added) /\
    Forall tool_role added /\
    length added <= length tcs /\
    (out = inr tt -> length added = length tcs) /\
    (forall other, other <> messages ->
       heap w' !! other = heap w !! other) /\
    length (heap w') = length (heap w).
Proof.
  intros Hs Hh Hrun.
  destruct (handle_tool_calls_run json_loads self s messages tcs Hs
              _ _ _ _ Hh Hrun)
    as (n & evs & tms & tail & Hall & _ & Hheap & Hend).
  exists tms. rewrite Hheap.
  assert (Hlen : length tms = length (take n tcs))
    by (symmetry; exact (Forall3_length_lr _ _ _ _ Hall)).
  rewrite length_take in Hlen.
  split.
  { apply list_lookup_insert_eq.
    apply lookup_lt_Some with (1 := Hh). }
  split.
  { clear - Hall. induction Hall as [|tc ev tm ? ? ? Hr _ IH];
      constructor; [|exact IH].
    destruct Hr as (args & result & text & rest & _ & _ & _ & ->).
    exists (OpenAI.id tc), text. reflexivity. }
  split; [lia|]. split.
  { intros ->. destruct Hend as [(_ & -> & _)|(e & [=] & _)]. lia. }
  split; [|apply length_insert].
  intros other Hother. apply list_lookup_insert_ne. congruence.
Qed.

(** X8: [_send_to_openai] changes no list it is given.  Every list of
    the store, the one passed as [messages] included, holds the same
    items afterwards; when that list is empty the user message is sent
    in a list of its own. *)
Theorem send_to_openai_keeps_lists (self : Client.MCPOpenAIClient)
    (query : option string) (messages : option nat)
    (tools : option (list PyVal)) (allow_tool_calls : bool) (w w' : World)
    (given : option (list Message))
    (out : Result OpenAI.ChatCompletion) :
  points_to w messages given ->
  Client._send_to_openai self query messages tools allow_tool_calls w
    = (w', out) ->
  points_to w' messages given /\
  (forall r l, heap w !! r = Some l -> heap w' !! r = Some l) /\
  (heap w' = heap w \/
   heap w' =
     heap w ++ [[MDict [("role", PStr "user");
                        ("content", py_opt_str query)]]]).
Proof.
  intros Hp Hrun.
  rewrite (send_to_openai_run _ _ _ _ _ _ _ Hp) in Hrun. cbn zeta in Hrun.
  assert (Hheap :
    heap w' = heap w \/
    heap w' =
      heap w ++ [[MDict [("role", PStr "user");
                         ("content", py_opt_str query)]]]).
  { destruct (negb (Client.truthy_list given) &&
              negb (Client.truthy_str query));
      [injection Hrun as <- _; left; reflexivity|].
    destruct (negb (Client.truthy_list given));
      injection Hrun as <- _; [right|left]; reflexivity. }
  assert (Hkeep : forall r l, heap w !! r = Some l -> heap w' !! r = Some l).
  { intros r l Hr. destruct Hheap as [->| ->]; [exact Hr|].
    apply lookup_app_l_Some. exact Hr. }
  split; [|split; [exact Hkeep|exact Hheap]].
  destruct messages as [r|], given as [l|]; cbn in Hp |- *;
    try contradiction; auto.
Qed.

(** ** client-sse.py: what [main] says to the session *)

(** How an [async with] ran: the entry failed; or the body ran and the
    exit decided the outcome. *)
Lemma async_with_inv {A : Type} (what : Resource) (cm : ContextManager A)
    (body : A -> M unit) (w w' : World) (out : Result unit) :
  async_with what cm body w = (w', out) ->
  (exists e, w' = emit (EvEnter what (Some e)) w /\ out = inl e) \/
  (exists x w1 r res,
     body x (emit (EvEnter what None) w) = (w1, r) /\
     w' = emit (EvExit what (exc_of r) res) w1).
Proof.
  unfold async_with. destruct (aenter cm (trace w)) as [e|x].
  - intros [= <- <-]. left. exists e. auto.
  - destruct (body x (emit (EvEnter what None) w)) as [w1 r] eqn:Hbody.
    intros [= <- _]. right.
    exists x, w1, r, (aexit cm (trace w1) (exc_of r)). auto.
Qed.

Lemma tool_lines_are_prints (l : list Mcp.Tool) :
  llm_round_trips (map tool_line l) = 0 /\ calls_in (map tool_line l) = [].
Proof.
  induction l as [|tool l [IH1 IH2]]; [split; reflexivity|].
  cbn [map]. rewrite llm_round_trips_cons, calls_in_cons. auto.
Qed.

Lemma sse_ending_is_prints (res : Result Mcp.CallToolResult) :
  llm_round_trips (fst (sse_ending res)) = 0 /\
  calls_in (fst (sse_ending res)) = [].
Proof.
  unfold sse_ending. destruct res as [e|result]; [split; reflexivity|].
  destruct (Mcp.content result) as [|[text| |] rest]; split; reflexivity.
Qed.

(** The body of the inner [async with] of client-sse.py. *)
Lemma sse_body_run (session : ClientSession.t) (w : World) :
  let arguments := PDict [("a", PInt 2); ("b", PInt 3)] in
  (await_initialize session ;;
   tools_result <- await_list_tools session ;;
   print (Text "Available tools:") ;;
   for_each (Mcp.tools tools_result) (fun tool =>
     print (Text ("  - " +:+ Mcp.name tool +:+ ": "
                  +:+ str_opt (Mcp.description tool)))) ;;
   result <- await_call_tool session "add" arguments ;;
   item <- index0 (Mcp.content result) ;;
   text <- text_of item ;;
   print (Text ("2 + 3 = " +:+ text))) w =
  match ClientSession.initialize session (trace w) with
  | inl e => (emit (EvInitialize (inl e)) w, inl e)
  | inr u =>
      let t1 := trace w ++ [EvInitialize (inr u)] in
      match ClientSession.list_tools session t1 with
      | inl e => ({| trace := t1 ++ [EvListTools (inl e)];
                     heap := heap w |}, inl e)
      | inr listed =>
          let t2 := t1 ++ [EvListTools (inr listed);
                           EvPrint (Text "Available tools:")]
                    ++ map tool_line (Mcp.tools listed) in
          let res := ClientSession.call_tool session t2 "add" arguments in
          ({| trace := t2 ++ EvCallTool "add" arguments res
                             :: fst (sse_ending res);
              heap := heap w |},
           snd (sse_ending res))
      end
  end.
Proof.
  cbn zeta.
  destruct (ClientSession.initialize session (trace w)) as [e|u] eqn:Hi.
  { erewrite bind_err
      by (unfold await_initialize; rewrite Hi; reflexivity).
    reflexivity. }
  erewrite bind_ok by (unfold await_initialize; rewrite Hi; reflexivity).
  destruct (ClientSession.list_tools session
              (trace w ++ [EvInitialize (inr u)])) as [e|listed] eqn:Hl.
  { erewrite bind_err
      by (unfold await_list_tools; cbn; rewrite Hl; reflexivity).
    reflexivity. }
  erewrite bind_ok
    by (unfold await_list_tools; cbn; rewrite Hl; reflexivity).
  erewrite bind_ok by reflexivity.
  erewrite bind_ok by apply for_each_print_run.
  unfold bind, await_call_tool, index0, text_of, print, ret, raise,
    sse_ending.
  cbn. rewrite <- !app_assoc. cbn.
  destruct (ClientSession.call_tool session _ "add" _) as [e|result].
  { unfold emit. cbn [trace heap fst snd].
    rewrite <- ?app_assoc. reflexivity. }
  destruct (Mcp.content result) as [|[text| |] rest];
    unfold emit; cbn [trace heap fst snd];
    rewrite <- ?app_assoc; reflexivity.
Qed.

(** X9: [main] of client-sse.py never asks a model, and calls at most
    one tool.  When it does call, the history is exactly: the transport
    and the session entered, the session initialized, the tools listed,
    the header and one line per tool printed, add called with a=2 and
    b=3, the line "2 + 3 = <text of the first item>" printed when the
    answer has one, and the session and the transport left, in that
    order. *)
Theorem sse_main_calls_add_once (env : Env) (w w' : World)
    (out : Result unit) :
  ClientSse.main env w = (w', out) ->
  exists d,
    trace w' = trace w ++ d /\
    llm_round_trips d = 0 /\
    (tool_dispatches d = 0 \/
     exists listed res exc1 left1 exc2 left2,
       d = [EvEnter (Transport ClientSse.url) None;
            EvEnter Session None;
            EvInitialize (inr tt);
            EvListTools (inr listed);
            EvPrint (Text "Available tools:")]
           ++ map tool_line (Mcp.tools listed)
           ++ [EvCallTool "add" (PDict [("a", PInt 2); ("b", PInt 3)]) res]
           ++ fst (sse_ending res)
           ++ [EvExit Session exc1 left1;
               EvExit (Transport ClientSse.url) exc2 left2] /\
       exc1 = exc_of (snd (sse_ending res)) /\
       tool_dispatches d = 1).
Proof.
  unfold ClientSse.main. intros Hrun.
  apply async_with_inv in Hrun.
  destruct Hrun as [(e & -> & _)|(streams & w1 & r1 & left2 & Hrun & ->)].
  { exists [EvEnter (Transport ClientSse.url) (Some e)].
    split; [reflexivity|]. split; [reflexivity|]. left. reflexivity. }
  apply async_with_inv in Hrun.
  destruct Hrun as [(e & -> & _)|(session & w2 & r2 & left1 & Hrun & ->)].
  { exists [EvEnter (Transport ClientSse.url) None;
            EvEnter Session (Some e);
            EvExit (Transport ClientSse.url) (exc_of r1) left2].
    split; [cbn; rewrite <- !app_assoc; reflexivity|].
    split; [reflexivity|]. left. reflexivity. }
  rewrite sse_body_run in Hrun. cbn zeta in Hrun. cbn [emit trace] in Hrun.
  destruct (ClientSession.initialize session _) as [e|[]].
  { injection Hrun as <- <-.
    exists [EvEnter (Transport ClientSse.url) None;
            EvEnter Session None; EvInitialize (inl e);
            EvExit Session (Some e) left1;
            EvExit (Transport ClientSse.url) (exc_of r1) left2].
    split; [cbn; rewrite <- !app_assoc; reflexivity|].
    split; [reflexivity|]. left. reflexivity. }
  destruct (ClientSession.list_tools session _) as [e|listed].
  { injection Hrun as <- <-.
    exists [EvEnter (Transport ClientSse.url) None;
            EvEnter Session None; EvInitialize (inr tt);
            EvListTools (inl e);
            EvExit Session (Some e) left1;
            EvExit (Transport ClientSse.url) (exc_of r1) left2].
    split; [cbn; rewrite <- !app_assoc; reflexivity|].
    split; [reflexivity|]. left. reflexivity. }
  match type of Hrun with
  | context [ClientSession.call_tool ?s ?t ?n ?a] =>
      set (res := ClientSession.call_tool s t n a) in *
  end.
  injection Hrun as <- <-.
  destruct (tool_lines_are_prints (Mcp.tools listed)) as [Hl0 Hlc].
  destruct (sse_ending_is_prints res) as [He0 Hec].
  exists ([EvEnter (Transport ClientSse.url) None;
           EvEnter Session None;
           EvInitialize (inr tt);
           EvListTools (inr listed);
           EvPrint (Text "Available tools:")]
          ++ map tool_line (Mcp.tools listed)
          ++ [EvCallTool "add" (PDict [("a", PInt 2); ("b", PInt 3)]) res]
          ++ fst (sse_ending res)
          ++ [EvExit Session (exc_of (snd (sse_ending res))) left1;
              EvExit (Transport ClientSse.url) (exc_of r1) left2]).
  split.
  { cbn [emit trace]. rewrite <- !app_assoc. cbn [app]. reflexivity. }
  split.
  { rewrite !llm_round_trips_app, Hl0, He0, !llm_round_trips_cons.
    reflexivity. }
  right.
  exists listed, res, (exc_of (snd (sse_ending res))), left1,
    (exc_of r1), left2.
  split; [reflexivity|]. split; [reflexivity|].
  unfold tool_dispatches.
  rewrite !calls_in_app, Hlc, Hec, !calls_in_cons. reflexivity.
Qed.

(** ** client.py: what [main] does around the query *)


(** ** client.py: more on the translation and on one tool call *)

(** X11: the translation to the function-calling format loses nothing:
    descriptors with the same translation have the same name,
    description and input schema, and lists of descriptors with the same
    translation are equal. *)
Theorem openai_tool_is_lossless (listed1 listed2 : list Mcp.Tool) :
  map Client.openai_tool listed1 = map Client.openai_tool listed2 ->
  listed1 = listed2.
Proof.
  revert listed2.
  induction listed1 as [|t1 l1 IH]; intros [|t2 l2] H;
    try discriminate; [reflexivity|].
  cbn [map] in H. injection H as Hname Hdescription Hschema Hrest.
  rewrite (IH _ Hrest). f_equal.
  destruct t1 as [n1 [d1|] s1], t2 as [n2 [d2|] s2];
    cbn in Hname, Hdescription, Hschema; congruence.
Qed.

(** X12: how one tool call fails.  If the arguments do not parse, the
    parser's exception is the outcome and the session is not called.  If
    the session raises, its exception is the outcome.  If the first item
    of the result is not a text, the outcome is an [AttributeError],
    although the tool was called.  In all three cases no message is
    appended. *)
Theorem dispatch_failures (self : Client.MCPOpenAIClient)
    (s : ClientSession.t) (messages : nat) (tool_call : OpenAI.ToolCall)
    (w : World) (history : list Message) :
  Client.session self = Some s ->
  heap w !! messages = Some history ->
  let name := OpenAI.name (OpenAI.function tool_call) in
  let parsed :=
    json_loads (OpenAI.arguments (OpenAI.function tool_call)) in
  (forall e, parsed = inl e ->
     dispatch self messages tool_call w = (w, inl e)) /\
  (forall arguments e, parsed = inr arguments ->
     ClientSession.call_tool s (trace w) name arguments = inl e ->
     dispatch self messages tool_call w =
     (emit (EvCallTool name arguments (inl e)) w, inl e)) /\
  (forall arguments result item rest, parsed = inr arguments ->
     ClientSession.call_tool s (trace w) name arguments = inr result ->
     Mcp.content result = item :: rest ->
     (forall text, item <> Mcp.TextContent text) ->
     dispatch self messages tool_call w =
     (emit (EvCallTool name arguments (inr result)) w,
      inl (AttributeError "text"))).
Proof.
  intros Hs Hh name parsed. subst name parsed.
  rewrite (dispatch_run json_loads self s messages tool_call w history
             Hs Hh).
  split; [|split].
  - intros e ->. reflexivity.
  - intros arguments e -> Hc. cbn zeta. rewrite Hc. reflexivity.
  - intros arguments result item rest -> Hc Hr Hitem. cbn zeta.
    rewrite Hc, Hr.
    destruct item as [text| |]; [|reflexivity..].
    exfalso. exact (Hitem text eq_refl).
Qed.

End MoreFacts.

(** ** The scenarios, run through these theorems *)

Lemma connect_to_server_run_witness :
  exists w' client,
    Client.connect_to_server (Demo.client Demo.model_plain) Demo.session
      Demo.start = (w', inr client) /\
    Client.session client = Some Demo.session /\
    length (trace w') = 4.
Proof.
  destruct (proj2 (proj2 (connect_to_server_run
                            (Demo.client Demo.model_plain) Demo.session
                            Demo.start))
              Demo.listed eq_refl eq_refl)
    as (w' & client & Hrun & Hs & _ & _ & Ht & _).
  exists w', client. split; [exact Hrun|]. split; [exact Hs|].
  rewrite Ht. reflexivity.
Defined.

Lemma unconnected_client_cannot_query_witness :
  exists w1 client,
    Client.__init__ (Demo.env Demo.model_plain) "gpt-4o" Demo.start
      = (w1, inr client) /\
    Client.process_query Demo.json_loads client Demo.question w1 =
    (w1, inl (AttributeError "list_tools")).
Proof.
  eexists _, _. split; [reflexivity|].
  exact (proj1 (proj2 (proj2 (proj2 (proj2
           (unconnected_client_cannot_query Demo.json_loads
              (Demo.env Demo.model_plain) "gpt-4o" Demo.start _ _
              eq_refl)))))
           Demo.question).
Defined.

Lemma empty_query_is_refused_witness :
  exists w',
    Client.process_query Demo.json_loads (Demo.client Demo.model_plain) ""
      Demo.start =
    (w', inl (ValueError "Either 'query' or 'messages' must be provided."))
    /\
    trace w' = trace Demo.start ++ [EvListTools (inr Demo.listed)].
Proof.
  exact (empty_query_is_refused Demo.json_loads
           (Demo.client Demo.model_plain) Demo.session Demo.start
           Demo.listed eq_refl eq_refl).
Defined.

Lemma process_query_is_bounded_witness :
  llm_round_trips (trace (fst Demo.add_run)) <= 2.
Proof.
  exact (proj1 (process_query_is_bounded Demo.json_loads
                  (Demo.client (Demo.model_using "add")) Demo.question
                  Demo.start (fst Demo.add_run) (snd Demo.add_run)
                  (trace (fst Demo.add_run)) eq_refl eq_refl)).
Defined.

Lemma first_request_shape_witness :
  exists listed rest,
    trace (fst Demo.mul_run) =
      EvListTools (inr listed)
      :: EvCreate (first_request (Demo.client (Demo.model_using "mul"))
                     Demo.question Demo.listed)
           (inr (Demo.asks "mul"))
      :: rest.
Proof.
  destruct (first_request_shape Demo.json_loads
              (Demo.client (Demo.model_using "mul")) Demo.question
              Demo.start (fst Demo.mul_run) (snd Demo.mul_run)
              (trace (fst Demo.mul_run))
              (first_request (Demo.client (Demo.model_using "mul"))
                 Demo.question Demo.listed)
              (inr (Demo.asks "mul")) eq_refl eq_refl eq_refl)
    as (listed & rest & Hd & _).
  exists listed, rest. exact Hd.
Defined.

Lemma tool_calls_follow_the_request_witness :
  exists d,
    Forall2 (sent_as Demo.json_loads)
      (take (length d) [Demo.request_of "add"; Demo.request_of "mul"]) d /\
    length d <= 2.
Proof.
  destruct (tool_calls_follow_the_request Demo.json_loads
              (Demo.client Demo.model_plain)
              [Demo.request_of "add"; Demo.request_of "mul"] 0
              {| trace := []; heap := [[]] |} _ _
              (surjective_pairing _))
    as (d & _ & Hlen & Hall & _).
  exists d. split; [exact Hall|exact Hlen].
Defined.

Lemma messages_are_append_only_witness :
  exists added,
    heap (fst (Client._handle_tool_calls Demo.json_loads
                 (Demo.client Demo.model_plain)
                 [Demo.request_of "add"; Demo.request_of "mul"] 0
                 {| trace := []; heap := [[]] |})) !! 0
      = Some ([] ++ added) /\
    Forall tool_role added.
Proof.
  destruct (messages_are_append_only Demo.json_loads
              (Demo.client Demo.model_plain) Demo.session
              [Demo.request_of "add"; Demo.request_of "mul"] 0
              {| trace := []; heap := [[]] |} _ _ [] eq_refl eq_refl
              (surjective_pairing _))
    as (added & Hh & Hroles & _).
  exists added. split; [exact Hh|exact Hroles].
Defined.

Lemma send_to_openai_keeps_lists_witness :
  heap (fst (Client._send_to_openai (Demo.client Demo.model_plain)
               (Some "Hi") (Some 0) None true
               {| trace := []; heap := [[]] |})) !! 0 = Some [].
Proof.
  exact (proj1 (send_to_openai_keeps_lists (Demo.client Demo.model_plain)
                  (Some "Hi") (Some 0) None true
                  {| trace := []; heap := [[]] |} _ (Some []) _
                  eq_refl (surjective_pairing _))).
Defined.

Lemma sse_main_calls_add_once_witness :
  exists d,
    trace (fst (ClientSse.main (Demo.env Demo.model_plain) Demo.start))
      = trace Demo.start ++ d /\
    llm_round_trips d = 0.
Proof.
  destruct (sse_main_calls_add_once (Demo.env Demo.model_plain) Demo.start
              _ _ (surjective_pairing _)) as (d & Ht & H0 & _).
  exists d. split; [exact Ht|exact H0].
Defined.


Lemma openai_tool_is_lossless_witness :
  Mcp.tools Demo.listed = Mcp.tools Demo.listed.
Proof.
  exact (openai_tool_is_lossless (Mcp.tools Demo.listed)
           (Mcp.tools Demo.listed) eq_refl).
Defined.

Lemma dispatch_failures_witness :
  Client.dispatch Demo.json_loads (Demo.client Demo.model_plain) 0
    (Demo.request_of "mul") {| trace := []; heap := [[]] |} =
  (emit (EvCallTool "mul" Demo.one_one_value (inl (UnknownTool "mul")))
     {| trace := []; heap := [[]] |},
   inl (UnknownTool "mul")).
Proof.
  exact (proj1 (proj2 (dispatch_failures Demo.json_loads
                         (Demo.client Demo.model_plain) Demo.session 0
                         (Demo.request_of "mul")
                         {| trace := []; heap := [[]] |} []
                         eq_refl eq_refl))
           Demo.one_one_value (UnknownTool "mul") eq_refl eq_refl).
Defined.
